(** * S3WebServer: the request handlers of [main.go]

    A shallow embedding of the request-translation layer of the server:
    [methodHandler], the four [serve*S3File] handlers and
    [handleHTTPException].  The handlers run in a small state monad over
    the request, the response writer and the S3 session; a nil
    dereference or an out-of-range slice ends the run as a panic.

    The libraries the handlers call are modelled at their interface:
    - [gin.ResponseWriter]: [WriteHeader] records the status, the status
      line and the header map are sent with the first [Write] (or when
      the request ends);
    - [http.Error] replies with the given message and code (the line feed
      that net/http appends to the message is left out); [http.Redirect]
      cleans the path of a relative target and hex-escapes the bytes
      outside ASCII before it sets [Location]; whether [url.Parse] reads a
      target as relative is a parameter;
    - every request reaches [methodHandler] through [router.NoRoute], so
      gin's [serveError] ends it: a writer left unwritten at status 404
      gets the body "404 page not found";
    - the S3 client is an interface of four operations over an abstract
      store state, each returning an output and an optional error. *)

From Stdlib Require Import ZArith Lia.
From Stdlib Require String Ascii DecimalString.
From stdpp Require Import base gmap strings list.

Open Scope Z_scope.

(** ** Strings as Go uses them *)

Module GoString.

(** [s[n:]]: the suffix from byte [n]; out of range is a run-time panic,
    here [None]. *)
Fixpoint slice_from (n : nat) (s : string) : option string :=
  match n, s with
  | O, _ => Some s
  | S n', String _ s' => slice_from n' s'
  | S _, EmptyString => None
  end.

(** [fmt.Sprintf("%d", n)] *)
Definition sprintf_d (n : Z) : string :=
  DecimalString.NilZero.string_of_int (Z.to_int n).

End GoString.

(** ** net/http: header maps *)

Module Http.

(** [http.Header] is [map[string][]string], keyed by canonical names. *)
Abbreviation Header := (gmap string (list string)).

Definition byte_in (lo hi : N) (c : Ascii.ascii) : bool :=
  let n := Ascii.N_of_ascii c in ((lo <=? n) && (n <=? hi))%N.

Definition is_lower : Ascii.ascii -> bool := byte_in 97 122.
Definition is_upper : Ascii.ascii -> bool := byte_in 65 90.
Definition is_digit : Ascii.ascii -> bool := byte_in 48 57.

(** The token bytes of RFC 7230: letters, digits and
    [! # $ % & ' * + - . ^ _ ` | ~]. *)
Definition validHeaderFieldByte (c : Ascii.ascii) : bool :=
  is_lower c || is_upper c || is_digit c
  || existsb (N.eqb (Ascii.N_of_ascii c))
       [33; 35; 36; 37; 38; 39; 42; 43; 45; 46; 94; 95; 96; 124; 126]%N.

Fixpoint all_valid (s : string) : bool :=
  match s with
  | EmptyString => true
  | String c s' => validHeaderFieldByte c && all_valid s'
  end.

Definition shift_case (c : Ascii.ascii) (upper : bool) : Ascii.ascii :=
  let n := Ascii.N_of_ascii c in
  if upper && is_lower c then Ascii.ascii_of_N (n - 32)
  else if negb upper && is_upper c then Ascii.ascii_of_N (n + 32)
  else c.

(** First letter and every letter after a dash in upper case, the others
    in lower case. *)
Fixpoint canonical_from (upper : bool) (s : string) : string :=
  match s with
  | EmptyString => EmptyString
  | String c s' =>
      let c' := shift_case c upper in
      String c' (canonical_from (N.eqb (Ascii.N_of_ascii c') 45) s')
  end.

(** [http.CanonicalHeaderKey]: a key holding a byte that is no token byte
    is returned as it is. *)
Definition CanonicalHeaderKey (s : string) : string :=
  if all_valid s then canonical_from true s else s.

(** [h.Get(key)]: the first value under the canonical key, or [""]. *)
Definition Header_Get (h : Header) (key : string) : string :=
  match h !! CanonicalHeaderKey key with
  | Some (v :: _) => v
  | _ => ""
  end.

(** [h.Set(key, value)] *)
Definition Header_Set (key value : string) (h : Header) : Header :=
  <[CanonicalHeaderKey key := [value]]> h.

(** [h.Add(key, value)] *)
Definition Header_Add (key value : string) (h : Header) : Header :=
  let k := CanonicalHeaderKey key in
  <[k := default [] (h !! k) ++ [value]]> h.

(** The header map of a request that arrived with the given fields. *)
Definition Header_of_list (fields : list (string * string)) : Header :=
  fold_left (fun h kv => Header_Add kv.1 kv.2 h) fields ∅.

Definition StatusOK : Z := 200.
Definition StatusCreated : Z := 201.
Definition StatusNoContent : Z := 204.
Definition StatusNotModified : Z := 304.
Definition StatusBadRequest : Z := 400.
Definition StatusNotFound : Z := 404.
Definition StatusMethodNotAllowed : Z := 405.
Definition StatusInternalServerError : Z := 500.

(** ** gin.ResponseWriter *)

Record ResponseWriter := mkResponseWriter {
  rw_header : Header;                 (* the live map behind [Header()] *)
  rw_status : Z;                      (* the status [WriteHeader] recorded *)
  rw_sent : option (Z * Header);      (* status line and headers, once sent *)
  rw_body : string                    (* the bytes written so far *)
}.

(** The writer gin hands to a handler chain, with the status it starts
    from. *)
Definition newResponseWriter (defaultStatus : Z) : ResponseWriter :=
  mkResponseWriter ∅ defaultStatus None "".

Definition Written (w : ResponseWriter) : bool :=
  match rw_sent w with Some _ => true | None => false end.

(** [w.Header().Set(key, value)] *)
Definition SetHeader (key value : string) (w : ResponseWriter) : ResponseWriter :=
  mkResponseWriter (Header_Set key value (rw_header w))
    (rw_status w) (rw_sent w) (rw_body w).

(** [w.WriteHeader(code)]: only records the status. *)
Definition WriteHeader (code : Z) (w : ResponseWriter) : ResponseWriter :=
  if (0 <? code) && negb (rw_status w =? code) && negb (Written w)
  then mkResponseWriter (rw_header w) code (rw_sent w) (rw_body w)
  else w.

(** [w.WriteHeaderNow()]: sends the status line and the headers as they
    are now; later changes of the map are not sent. *)
Definition WriteHeaderNow (w : ResponseWriter) : ResponseWriter :=
  match rw_sent w with
  | Some _ => w
  | None =>
      mkResponseWriter (rw_header w) (rw_status w)
        (Some (rw_status w, rw_header w)) (rw_body w)
  end.

(** [w.Write(data)] *)
Definition Write (data : string) (w : ResponseWriter) : ResponseWriter :=
  let w' := WriteHeaderNow w in
  mkResponseWriter (rw_header w') (rw_status w') (rw_sent w')
    (rw_body w' +:+ data).

(** [io.Copy(w, src)] for a source holding [data]: an empty source causes
    no [Write]. *)
Definition io_Copy (data : string) (w : ResponseWriter) : ResponseWriter :=
  if String.eqb data "" then w else Write data w.

(** [http.Error(w, error, code)] *)
Definition Error (error : string) (code : Z) (w : ResponseWriter) : ResponseWriter :=
  Write error
    (WriteHeader code
       (SetHeader "X-Content-Type-Options" "nosniff"
          (SetHeader "Content-Type" "text/plain; charset=utf-8" w))).

(** *** Paths, as [path] and [strings] handle them *)

Definition is_byte (n : N) (c : Ascii.ascii) : bool :=
  N.eqb (Ascii.N_of_ascii c) n.

(** [strings.HasSuffix(s, "/")] *)
Fixpoint has_suffix_slash (s : string) : bool :=
  match s with
  | EmptyString => false
  | String c EmptyString => is_byte 47 c
  | String _ rest => has_suffix_slash rest
  end.

(** The elements of a path: [strings.Split(s, "/")]. *)
Fixpoint segments (s : string) : list string :=
  match s with
  | EmptyString => [EmptyString]
  | String c rest =>
      if is_byte 47 c then EmptyString :: segments rest
      else match segments rest with
           | elem :: elems => String c elem :: elems
           | [] => [String c EmptyString]
           end
  end.

(** [strings.Join(elems, "/")] *)
Fixpoint join (elems : list string) : string :=
  match elems with
  | [] => ""
  | elem :: rest =>
      match rest with
      | [] => elem
      | _ :: _ => elem +:+ "/" +:+ join rest
      end
  end.

(** One round of the loop of [path.Clean], on the element that starts at
    the read index.  [out] holds the elements written so far, the last one
    first; [dotdot] counts the leading [..] elements that a later [..]
    must not remove. *)
Definition clean_element (rooted : bool) (st : list string * nat)
    (elem : string) : list string * nat :=
  let '(out, dotdot) := st in
  if String.eqb elem "" || String.eqb elem "." then st
  else if String.eqb elem ".." then
    if (dotdot <? length out)%nat then (tail out, dotdot)
    else if rooted then st
    else (".." :: out, S (length out))
  else (elem :: out, dotdot).

(** [path.Clean] *)
Definition path_Clean (path : string) : string :=
  match path with
  | EmptyString => "."
  | String c rest =>
      let rooted := is_byte 47 c in
      let elems := segments (if rooted then rest else path) in
      let out := (fold_left (clean_element rooted) elems ([], O)).1 in
      if rooted then "/" +:+ join (rev out)
      else match out with
           | [] => "."
           | _ :: _ => join (rev out)
           end
  end.

(** The directory of [path.Split]: the path up to and including its last
    slash. *)
Fixpoint path_dir (path : string) : string :=
  match path with
  | EmptyString => ""
  | String c rest =>
      let dir := path_dir rest in
      if is_byte 47 c || negb (String.eqb dir "") then String c dir else ""
  end.

(** The path before the first [?] and the query from it on. *)
Fixpoint cut_query (url : string) : string * string :=
  match url with
  | EmptyString => ("", "")
  | String c rest =>
      if is_byte 63 c then ("", url)
      else let '(path, query) := cut_query rest in (String c path, query)
  end.

Definition hex_digit (n : N) : Ascii.ascii :=
  Ascii.ascii_of_N (if (n <? 10)%N then 48 + n else 87 + n)%N.

(** [hexEscapeNonASCII]: a byte from 0x80 on becomes [%] and its two
    lower-case hex digits. *)
Fixpoint hexEscapeNonASCII (s : string) : string :=
  match s with
  | EmptyString => ""
  | String c rest =>
      let n := Ascii.N_of_ascii c in
      if (128 <=? n)%N then
        String (Ascii.ascii_of_N 37)
          (String (hex_digit (n / 16)) (String (hex_digit (n mod 16))
             (hexEscapeNonASCII rest)))
      else String c (hexEscapeNonASCII rest)
  end.

(** The target [http.Redirect] sends for [url], on a request whose path is
    [oldpath].  [relative url] says that [url.Parse] accepts [url] and
    finds neither a scheme nor a host in it. *)
Definition redirect_target (relative : string -> bool) (oldpath url : string)
    : string :=
  if relative url then
    let oldpath := if String.eqb oldpath "" then "/" else oldpath in
    (* no leading http://server *)
    let url :=
      match url with
      | String c _ => if is_byte 47 c then url else path_dir oldpath +:+ url
      | EmptyString => path_dir oldpath +:+ url
      end in
    let '(url, query) := cut_query url in
    (* clean up but preserve trailing slash *)
    let trailing := has_suffix_slash url in
    let url := path_Clean url in
    let url :=
      if trailing && negb (has_suffix_slash url) then url +:+ "/" else url in
    url +:+ query
  else url.

(** [http.Redirect(w, r, url, code)] for a request of method [method] and
    path [oldpath]; [note] is the short HTML body net/http renders for a
    GET. *)
Definition Redirect (relative : string -> bool) (note : string -> Z -> string)
    (method oldpath url : string) (code : Z) (w : ResponseWriter)
    : ResponseWriter :=
  let url := redirect_target relative oldpath url in
  let hadCT := bool_decide (is_Some (rw_header w !! "Content-Type")) in
  let w1 := SetHeader "Location" (hexEscapeNonASCII url) w in
  let w2 :=
    if negb hadCT && (String.eqb method "GET" || String.eqb method "HEAD")
    then SetHeader "Content-Type" "text/html; charset=utf-8" w1 else w1 in
  let w3 := WriteHeader code w2 in
  if negb hadCT && String.eqb method "GET" then Write (note url code) w3 else w3.

(** A key [http.Redirect] has nothing to change in: every element is a
    name (not empty, not [.] and not [..]) and every byte is ASCII and no
    [?]. *)
Definition plainElement (elem : string) : bool :=
  negb (String.eqb elem "") && negb (String.eqb elem ".")
  && negb (String.eqb elem "..").

Fixpoint plainBytes (s : string) : bool :=
  match s with
  | EmptyString => true
  | String c rest =>
      (Ascii.N_of_ascii c <? 128)%N && negb (is_byte 63 c) && plainBytes rest
  end.

Definition plainKey (key : string) : bool :=
  forallb plainElement (segments key) && plainBytes key.

(** What the client receives once the request has ended. *)
Record Response := mkResponse {
  Status : Z;
  Headers : Header;
  Body : string
}.

(** gin's [serveError(c, code, defaultMessage)], once the handlers have
    run: a writer that was written to is left alone; one still at [code]
    gets the plain-text default message; any other is flushed. *)
Definition serveError (code : Z) (defaultMessage : string) (w : ResponseWriter)
    : ResponseWriter :=
  if Written w then w
  else if rw_status w =? code then
    Write defaultMessage
      (mkResponseWriter (<["Content-Type" := ["text/plain"]]> (rw_header w))
         (rw_status w) (rw_sent w) (rw_body w))
  else WriteHeaderNow w.

(** [main] hands every request to the handler through [router.NoRoute],
    which gin ends with [serveError(c, 404, "404 page not found")]. *)
Definition response (w : ResponseWriter) : Response :=
  let w' := serveError StatusNotFound "404 page not found" w in
  match rw_sent w' with
  | Some (st, h) => mkResponse st h (rw_body w')
  | None => mkResponse (rw_status w') (rw_header w') (rw_body w')
  end.

(** ** Requests *)

(** [r.Body] as [ioutil.ReadAll] sees it: the bytes, and the I/O error
    (its text) that ended the read, if any. *)
Record RequestBody := mkBody {
  body_bytes : string;
  body_err : option string
}.

Record Request := mkRequest {
  Method : string;
  URL_Path : string;
  ReqHeader : Header;
  ReqBody : RequestBody
}.

End Http.

(** ** The AWS SDK: errors and the S3 client *)

Module Aws.

(** An error that satisfies [awserr.Error]; [OrigErr] holds the text of
    the wrapped error ([origErr.Error()]), [None] for nil. *)
Record awsError := mkAwsError {
  Code : string;
  Message : string;
  OrigErr : option string
}.

(** A non-nil Go [error]: either it satisfies [awserr.Error] or it is
    some other error, known by its text ([err.Error()]). *)
Inductive error :=
| AwsErr (awsError : awsError)
| PlainErr (text : string).

(** [time.Time], as seconds since the epoch. *)
Definition Time : Type := Z.

Module HeadObjectInput.
Record t := mk { Bucket : string; Key : string; IfNoneMatch : option string }.
End HeadObjectInput.

Module HeadObjectOutput.
Record t := mk {
  ContentType : option string;
  ContentLength : option Z;
  LastModified : option Time;
  ETag : option string
}.
End HeadObjectOutput.

Module GetObjectInput.
Record t := mk { Bucket : string; Key : string }.
End GetObjectInput.

Module GetObjectOutput.
Record t := mk {
  Body : string;
  ContentType : option string;
  ContentLength : option Z;
  LastModified : option Time;
  ETag : option string
}.
End GetObjectOutput.

Module PutObjectInput.
Record t := mk { Bucket : string; Key : string; Body : string }.
End PutObjectInput.

Module PutObjectOutput.
Record t := mk { ETag : option string }.
End PutObjectOutput.

Module DeleteObjectInput.
Record t := mk { Bucket : string; Key : string }.
End DeleteObjectInput.

Module DeleteObjectOutput.
Record t := mk { DeleteMarker : option bool }.
End DeleteObjectOutput.

(** The four operations of [*s3.S3] the server uses, over the state [St]
    of the bucket behind them.  Each returns its output and its error
    ([None] for nil), as the SDK does. *)
Record S3 (St : Type) := mkS3 {
  HeadObject : HeadObjectInput.t -> St -> (HeadObjectOutput.t * option error) * St;
  GetObject : GetObjectInput.t -> St -> (GetObjectOutput.t * option error) * St;
  PutObject : PutObjectInput.t -> St -> (PutObjectOutput.t * option error) * St;
  DeleteObject : DeleteObjectInput.t -> St -> (DeleteObjectOutput.t * option error) * St
}.
Arguments HeadObject {St}.
Arguments GetObject {St}.
Arguments PutObject {St}.
Arguments DeleteObject {St}.

(** A call issued to the store. *)
Inductive Call :=
| CallHead (input : HeadObjectInput.t)
| CallGet (input : GetObjectInput.t)
| CallPut (input : PutObjectInput.t)
| CallDelete (input : DeleteObjectInput.t).

End Aws.

Import Http Aws.

(** ** The server *)

(** Application config type *)
Record webConfig := mkWebConfig {
  Port : string;
  S3bucket : string;
  AwsRegion : string;
  Homepage : string
}.

(** Handle an exception and write to response.  The writer is passed by
    reference in the source; here the written writer is returned with the
    error. *)
Definition handleHTTPException (path : string) (w : ResponseWriter)
    (err : option error) : ResponseWriter * option error :=
  match err with
  | Some (AwsErr awsError) =>
      let code := Code awsError in
      if String.eqb code "MissingContentLength" then
        (Http.Error "Bad Request" StatusBadRequest w, err)
      else if String.eqb code "NotModified" then
        (Http.Error "Object not modified" StatusNotModified w, err)
      else if String.eqb code "NoSuchKey" || String.eqb code "NotFound" then
        (Http.Error ("Path '" +:+ path +:+ "' not found: " +:+ Message awsError)
           StatusNotFound w, err)
      else
        let cause :=
          match OrigErr awsError with
          | Some origErr => " (Cause: " +:+ origErr +:+ ")"
          | None => ""
          end in
        (Http.Error ("An internal error occurred: " +:+ code +:+ " = "
                     +:+ Message awsError +:+ cause)
           StatusInternalServerError w, err)
  | Some (PlainErr text) =>
      (Http.Error ("An internal error occurred: " +:+ text)
         StatusInternalServerError w, err)
  | None => (w, err)
  end.

(** ** An in-memory bucket

    A client over a finite map from keys to objects, to run the handlers
    on concrete requests. *)

Module MemBucket.

Record Object := mkObject {
  Content : string;
  MediaType : string;
  Modified : Time;
  Tag : string
}.

Abbreviation t := (gmap string Object).

Definition notFound : option error :=
  Some (AwsErr (mkAwsError "NotFound" "Not Found" None)).

Definition noSuchKey : option error :=
  Some (AwsErr (mkAwsError "NoSuchKey" "The specified key does not exist." None)).

Definition notModified : option error :=
  Some (AwsErr (mkAwsError "NotModified" "Not Modified" None)).

Definition size (o : Object) : Z := Z.of_nat (String.length (Content o)).

Definition headObject (input : HeadObjectInput.t) (b : t)
    : (HeadObjectOutput.t * option error) * t :=
  match b !! HeadObjectInput.Key input with
  | None => ((HeadObjectOutput.mk None None None None, notFound), b)
  | Some o =>
      if decide (HeadObjectInput.IfNoneMatch input = Some (Tag o)) then
        ((HeadObjectOutput.mk None None None None, notModified), b)
      else
        ((HeadObjectOutput.mk (Some (MediaType o)) (Some (size o))
            (Some (Modified o)) (Some (Tag o)), None), b)
  end.

Definition getObject (input : GetObjectInput.t) (b : t)
    : (GetObjectOutput.t * option error) * t :=
  match b !! GetObjectInput.Key input with
  | None => ((GetObjectOutput.mk "" None None None None, noSuchKey), b)
  | Some o =>
      ((GetObjectOutput.mk (Content o) (Some (MediaType o)) (Some (size o))
          (Some (Modified o)) (Some (Tag o)), None), b)
  end.

(** The version tag given to uploaded bytes. *)
Definition tagOf (bytes : string) : string :=
  "v" +:+ GoString.sprintf_d (Z.of_nat (String.length bytes)).

Definition putObject (input : PutObjectInput.t) (b : t)
    : (PutObjectOutput.t * option error) * t :=
  let bytes := PutObjectInput.Body input in
  ((PutObjectOutput.mk (Some (tagOf bytes)), None),
   <[PutObjectInput.Key input :=
       mkObject bytes "binary/octet-stream" 0 (tagOf bytes)]> b).

Definition deleteObject (input : DeleteObjectInput.t) (b : t)
    : (DeleteObjectOutput.t * option error) * t :=
  ((DeleteObjectOutput.mk None, None), delete (DeleteObjectInput.Key input) b).

Definition client : S3 t := mkS3 t headObject getObject putObject deleteObject.

(** The same bucket behind a store that returns no version tag for an
    upload. *)
Definition putObjectUntagged (input : PutObjectInput.t) (b : t)
    : (PutObjectOutput.t * option error) * t :=
  ((PutObjectOutput.mk None, None), (putObject input b).2).

Definition untagged : S3 t :=
  mkS3 t headObject getObject putObjectUntagged deleteObject.

(** A bucket with one page and one report. *)
Definition sample : t :=
  <["dir/index.html" := mkObject "<h1>dir</h1>" "text/html" 1500000000 "v1"]>
    (<["report.txt" := mkObject "quarterly" "text/plain" 1600000000 "v2"]> ∅).

Definition bucketName : string := "site".

Definition withIndex : webConfig := mkWebConfig "8000" bucketName "eu-west-1" "index.html".
Definition withoutIndex : webConfig := mkWebConfig "8000" bucketName "eu-west-1" "".

Definition timeString (t : Time) : string := GoString.sprintf_d t.
Definition redirectNote (url : string) (code : Z) : string := url.

(** [url.Parse] on the targets of the samples: a target that starts with
    one slash and holds no control byte, [%] or [#] is a path, with
    neither scheme nor host. *)
Definition relativeTarget (url : string) : bool :=
  let fix printable (s : string) : bool :=
    match s with
    | EmptyString => true
    | String c rest =>
        let n := Ascii.N_of_ascii c in
        (32 <=? n)%N && negb (n =? 127)%N && negb (n =? 37)%N
        && negb (n =? 35)%N && printable rest
    end in
  match url with
  | String c rest =>
      is_byte 47 c
      && negb (match rest with String d _ => is_byte 47 d | EmptyString => false end)
      && printable rest
  | EmptyString => false
  end.

End MemBucket.

(** ** The path resolver as the specification words it *)

Module Spec.

Inductive Resolution :=
| Resolved (storageKey : string) (usedFallback : bool)
| BadRequest (message : string).

(** Strips the single leading separator character. *)
Definition strip (rawPath : string) : string :=
  match rawPath with
  | String c rest => if N.eqb (Ascii.N_of_ascii c) 47 then rest else rawPath
  | EmptyString => rawPath
  end.

Fixpoint endsWithSeparator (s : string) : bool :=
  match s with
  | EmptyString => false
  | String c EmptyString => N.eqb (Ascii.N_of_ascii c) 47
  | String _ rest => endsWithSeparator rest
  end.

Definition resolve (rawPath defaultIndexName : string) : Resolution :=
  let candidate := strip rawPath in
  if String.eqb candidate "" || endsWithSeparator candidate then
    if String.eqb defaultIndexName "" then BadRequest "Path must be provided"
    else Resolved (candidate +:+ defaultIndexName) true
  else Resolved candidate false.

End Spec.

(** ** Configuration *)

Module Bootstrap.

(** How a call ends: it returns, the process exits ([os.Exit]), or it
    panics. *)
Inductive outcome (A : Type) :=
| Return (a : A)
| Exit (code : Z)
| Panic.
Arguments Return {A}.
Arguments Exit {A}.
Arguments Panic {A}.

(** What the configuration code asks of the process and the libraries:
    the environment, [ioutil.ReadFile] (the bytes, or the text of the
    error), and the three decoders.  A decoder is given the bytes and a
    pointer to an empty [webConfig]; it returns the pointer as it leaves it
    ([None] for nil) and its error. *)
Record Platform := mkPlatform {
  Environ : gmap string string;
  ReadFile : string -> string + string;
  yaml_Unmarshal : string -> option webConfig * option string;
  json_Unmarshal : string -> option webConfig * option string;
  toml_Decode : string -> option webConfig * option string
}.

(** [os.Getenv]: the empty string for a variable that is not set. *)
Definition Getenv (pf : Platform) (key : string) : string :=
  default "" (Environ pf !! key).

(** [filepath.Ext]: the suffix beginning at the final dot in the final
    element of the path; the loop runs from the last byte down to the
    first, [i] being one more than the index looked at. *)
Fixpoint Ext_loop (i : nat) (path : string) : string :=
  match i with
  | O => ""
  | S j =>
      match String.get j path with
      | Some c =>
          if N.eqb (Ascii.N_of_ascii c) 47 then ""
          else if N.eqb (Ascii.N_of_ascii c) 46
               then default "" (GoString.slice_from j path)
               else Ext_loop j path
      | None => ""
      end
  end.

Definition Ext (path : string) : string := Ext_loop (String.length path) path.

(** [toml.DecodeFile]: reads the file itself. *)
Definition toml_DecodeFile (pf : Platform) (path : string)
    : option webConfig * option string :=
  match ReadFile pf path with
  | inl bs => toml_Decode pf bs
  | inr err => (Some (mkWebConfig "" "" "" ""), Some err)
  end.

(** [errors.Wrap(err, message)], as the text of the wrapped error. *)
Definition Wrap (err message : string) : string := message +:+ ": " +:+ err.

(** Get an environment variable or use a default value if not set *)
Definition getEnvOrDefault (pf : Platform) (envName defaultVal : string)
    (fatal : bool) : outcome string :=
  let envVal := Getenv pf envName in
  if Nat.eqb (String.length envVal) 0 then
    if fatal then Exit 1 else Return defaultVal
  else Return envVal.

Definition setPort (port : string) (cfg : webConfig) : webConfig :=
  mkWebConfig port (S3bucket cfg) (AwsRegion cfg) (Homepage cfg).

Definition setAwsRegion (region : string) (cfg : webConfig) : webConfig :=
  mkWebConfig (Port cfg) (S3bucket cfg) region (Homepage cfg).

(** Read configuration file.  The result is the configuration and the
    error ([None] for nil). *)
Definition readConfig (pf : Platform) (configPath : string)
    : outcome (webConfig * option string) :=
  let configPath := if String.eqb configPath "" then "config.yaml" else configPath in
  (* Read file content *)
  match ReadFile pf configPath with
  | inr err =>
      Return (mkWebConfig "" "" "" "",
              Some (Wrap err "failed to read configuration file"))
  | inl bs =>
      (* Check file extension *)
      let extension := Ext configPath in
      let '(cfg, err) :=
        if String.eqb extension ".yaml" || String.eqb extension ".yml" then
          yaml_Unmarshal pf bs
        else if String.eqb extension ".json" then json_Unmarshal pf bs
        else if String.eqb extension ".toml" then toml_DecodeFile pf configPath
        else
          (Some (mkWebConfig "" "" "" ""),
           Some ("Unknown configuration file format " +:+ extension
                 +:+ " (support only yaml or json)")) in
      match err with
      | Some err =>
          Return (mkWebConfig "" "" "" "",
                  Some (Wrap err "failed to parse configuration file"))
      | None =>
          match cfg with
          | None => Panic
          | Some cfg =>
              let cfg := if String.eqb (Port cfg) "" then setPort "8000" cfg else cfg in
              if String.eqb (AwsRegion cfg) "" then
                match getEnvOrDefault pf "AWS_REGION" "eu-west-1" false with
                | Return region => Return (setAwsRegion region cfg, None)
                | Exit code => Exit code
                | Panic => Panic
                end
              else Return (cfg, None)
          end
      end
  end.

(** A platform with one YAML file, one JSON file holding [null], and a
    region in the environment. *)
Definition host : Platform :=
  mkPlatform
    (<["AWS_REGION" := "us-east-1"]> ∅)
    (fun path =>
       if String.eqb path "config.yaml" then inl "s3bucket: site"
       else if String.eqb path "null.json" then inl "null"
       else if String.eqb path "notes.txt" then inl "port = 80"
       else inr ("open " +:+ path +:+ ": no such file or directory"))
    (fun bs => (Some (mkWebConfig "" "site" "" ""), None))
    (fun bs => (None, None))
    (fun bs => (Some (mkWebConfig "" "" "" ""), Some "bad toml")).

End Bootstrap.

#[local] Arguments handleHTTPException : simpl never.
#[local] Arguments Http.Error : simpl never.
#[local] Arguments Http.Redirect : simpl never.
#[local] Arguments Http.WriteHeader : simpl never.
#[local] Arguments Http.Write : simpl never.
#[local] Arguments Http.SetHeader : simpl never.
#[local] Arguments Http.io_Copy : simpl never.

Section Server.

Context {St : Type}.

(** [s3Session], [configHolder.Config], and two renderings of the Go
    library: [time.Time.String] and the HTML note of [http.Redirect]. *)
Variable s3Session : S3 St.
Variable config : webConfig.
Variable Time_String : Time -> string.
Variable redirect_note : string -> Z -> string.

(** [url.Parse] accepts a redirect target and finds neither scheme nor
    host in it. *)
Variable url_relative : string -> bool.

(** What a handler works on: the request and writer of its
    [gin.Context], the state of the bucket and the calls issued to it. *)
Record World := mkWorld {
  Req : Request;
  Writer : ResponseWriter;
  Bucket : St;
  Calls : list Call
}.

(** A handler step: a value or a panic ([None]), and the world it
    leaves. *)
Definition M (A : Type) : Type := World -> option A * World.

Definition ret {A} (a : A) : M A := fun wd => (Some a, wd).

Definition bind {A B} (m : M A) (k : A -> M B) : M B :=
  fun wd =>
    match m wd with
    | (Some a, wd') => k a wd'
    | (None, wd') => (None, wd')
    end.

Definition panic {A} : M A := fun wd => (None, wd).

Notation "'let*' p ':=' c1 'in' c2" := (bind c1 (fun p => c2))
  (at level 10, p pattern, c1 at level 100, c2 at level 200).
Notation "c1 ';;' c2" := (bind c1 (fun _ => c2))
  (at level 100, c2 at level 200, right associativity).

(** [*p] *)
Definition deref {A} (p : option A) : M A :=
  match p with Some a => ret a | None => panic end.

(** [s[n:]] *)
Definition slice (s : string) (n : nat) : M string :=
  deref (GoString.slice_from n s).

Definition getRequest : M Request := fun wd => (Some (Req wd), wd).

Definition setURLPath (path : string) : M unit :=
  fun wd =>
    let r := Req wd in
    (Some tt,
     mkWorld (mkRequest (Method r) path (ReqHeader r) (ReqBody r))
       (Writer wd) (Bucket wd) (Calls wd)).

Definition onWriter (f : ResponseWriter -> ResponseWriter) : M unit :=
  fun wd => (Some tt, mkWorld (Req wd) (f (Writer wd)) (Bucket wd) (Calls wd)).

Definition handleException (path : string) (err : option error) : M (option error) :=
  fun wd =>
    let (w', e) := handleHTTPException path (Writer wd) err in
    (Some e, mkWorld (Req wd) w' (Bucket wd) (Calls wd)).

(** A call on [s3Session]: it runs against the bucket and is recorded. *)
Definition call {I O : Type} (op : I -> St -> (O * option error) * St)
    (tag : I -> Call) (input : I) : M (O * option error) :=
  fun wd =>
    let (res, b') := op input (Bucket wd) in
    (Some res, mkWorld (Req wd) (Writer wd) b' (Calls wd ++ [tag input])).

(** [ioutil.ReadAll(r.Body)] *)
Definition ReadAll (b : RequestBody) : string * option error :=
  (body_bytes b, PlainErr <$> body_err b).

(** Serve a HEAD request for a S3 file *)
Definition serveHeadS3File : M unit :=
  let* r := getRequest in
  let* filePath := slice (URL_Path r) 1 in
  let etag := Header_Get (ReqHeader r) "ETag" in
  let input :=
    HeadObjectInput.mk (S3bucket config) filePath
      (if String.eqb etag "" then None else Some etag) in
  let* (resp, err) := call (HeadObject s3Session) CallHead input in
  let* e := handleException filePath err in
  match e with
  | Some _ => ret tt
  | None =>
      let* contentType := deref (HeadObjectOutput.ContentType resp) in
      onWriter (SetHeader "Content-Type" contentType) ;;
      let* contentLength := deref (HeadObjectOutput.ContentLength resp) in
      onWriter (SetHeader "Content-Length" (GoString.sprintf_d contentLength)) ;;
      let* lastModified := deref (HeadObjectOutput.LastModified resp) in
      onWriter (SetHeader "Last-Modified" (Time_String lastModified)) ;;
      let* etag := deref (HeadObjectOutput.ETag resp) in
      onWriter (SetHeader "Etag" etag)
  end.

(** Serve a GET request for a S3 file *)
Definition serveGetS3File : M unit :=
  let* r := getRequest in
  let* filePath := slice (URL_Path r) 1 in
  let params := GetObjectInput.mk (S3bucket config) filePath in
  let* (resp, err) := call (GetObject s3Session) CallGet params in
  let* e := handleException filePath err in
  match e with
  | Some _ => ret tt
  | None =>
      onWriter (WriteHeader StatusOK) ;;
      let* contentType := deref (GetObjectOutput.ContentType resp) in
      onWriter (SetHeader "Content-Type" contentType) ;;
      let* lastModified := deref (GetObjectOutput.LastModified resp) in
      onWriter (SetHeader "Last-Modified" (Time_String lastModified)) ;;
      let* etag := deref (GetObjectOutput.ETag resp) in
      onWriter (SetHeader "Etag" etag) ;;
      let* contentLength := deref (GetObjectOutput.ContentLength resp) in
      onWriter (SetHeader "Content-Length" (GoString.sprintf_d contentLength)) ;;
      (* File is ready to download *)
      onWriter (io_Copy (GetObjectOutput.Body resp))
  end.

(** Serve a PUT request for a S3 file *)
Definition servePutS3File : M unit :=
  let* r := getRequest in
  let* filePath := slice (URL_Path r) 1 in
  let '(b, err) := ReadAll (ReqBody r) in
  let* e := handleException filePath err in
  match e with
  | Some _ => ret tt
  | None =>
      let params := PutObjectInput.mk (S3bucket config) filePath b in
      let* (resp, err) := call (PutObject s3Session) CallPut params in
      let* e := handleException filePath err in
      match e with
      | Some _ => ret tt
      | None =>
          let* etag := deref (PutObjectOutput.ETag resp) in
          onWriter (SetHeader "ETag" etag) ;;
          onWriter (Redirect url_relative redirect_note (Method r) (URL_Path r)
                      ("/" +:+ filePath) StatusCreated)
      end
  end.

(** Serve a DELETE request for a S3 file *)
Definition serveDeleteS3File : M unit :=
  let* r := getRequest in
  let* filePath := slice (URL_Path r) 1 in
  let params := DeleteObjectInput.mk (S3bucket config) filePath in
  let* (_, err) := call (DeleteObject s3Session) CallDelete params in
  let* e := handleException filePath err in
  match e with
  | Some _ => ret tt
  | None =>
      (* File has been deleted *)
      onWriter (WriteHeader StatusNoContent)
  end.

(** The [switch method] of [methodHandler]. *)
Definition dispatch (method : string) : M unit :=
  if String.eqb method "GET" then serveGetS3File
  else if String.eqb method "PUT" then servePutS3File
  else if String.eqb method "DELETE" then serveDeleteS3File
  else if String.eqb method "HEAD" then serveHeadS3File
  else onWriter (Http.Error ("Method " +:+ method +:+ " not supported")
                   StatusMethodNotAllowed).

(** [path == "" || path[len(path)-1:] == "/"] *)
Definition noFile (path : string) : M bool :=
  if String.eqb path "" then ret true
  else
    let* last := slice path (String.length path - 1) in
    ret (String.eqb last "/").

(** Handle http method to provide the good S3 function *)
Definition methodHandler : M unit :=
  let* r := getRequest in
  let method := Method r in
  let* path := slice (URL_Path r) 1 in (* Remove the / from the start of the URL *)
  (* A file with no path cannot be served *)
  let* directory := noFile path in
  if directory then
    if String.eqb (Homepage config) "" then
      onWriter (Http.Error "Path must be provided" StatusBadRequest)
    else
      setURLPath (URL_Path r +:+ Homepage config) ;;
      dispatch method
  else
    dispatch method.

(** The value of [path == "" || path[len(path)-1:] == "/"]. *)
Definition directory (path : string) : bool :=
  String.eqb path ""
  || match GoString.slice_from (String.length path - 1) path with
     | Some last => String.eqb last "/"
     | None => false
     end.

(** The key the handlers read back from [r.URL.Path] once the index page
    has been appended to a directory path. *)
Definition storageKey (path : string) : string :=
  if directory path then path +:+ Homepage config else path.

(** The world a request meets: a fresh writer starting from
    [defaultStatus], the bucket as it is, no call issued yet. *)
Definition arrive (r : Request) (defaultStatus : Z) (bucket : St) : World :=
  mkWorld r (newResponseWriter defaultStatus) bucket [].

(** The response of a run, when the handler returned. *)
Definition reply (run : option unit * World) : option Response :=
  match run with
  | (Some _, wd) => Some (response (Writer wd))
  | (None, _) => None
  end.


(** *** Strings *)

Lemma str_app_cons (c : Ascii.ascii) (s t : string) :
  String c s +:+ t = String c (s +:+ t).
Proof. reflexivity. Qed.

Lemma str_app_nil_l (t : string) : "" +:+ t = t.
Proof. reflexivity. Qed.

Lemma str_length_app (s t : string) :
  String.length (s +:+ t) = (String.length s + String.length t)%nat.
Proof.
  induction s as [|c s IH]; [reflexivity|].
  rewrite str_app_cons. simpl. now rewrite IH.
Qed.

Lemma str_app_nil_r (s : string) : s +:+ "" = s.
Proof.
  induction s as [|c s IH]; [reflexivity|]. now rewrite str_app_cons, IH.
Qed.

(** The last byte of a non-empty string, read as [s[len(s)-1:]]. *)
Lemma slice_last_app (q : string) (c : Ascii.ascii) :
  GoString.slice_from (String.length (q +:+ String c "") - 1) (q +:+ String c "")
  = Some (String c "").
Proof.
  induction q as [|d q IH]; [reflexivity|].
  change (String d q +:+ String c "") with (String d (q +:+ String c "")).
  simpl String.length.
  replace (S (String.length (q +:+ String c "")) - 1)%nat
    with (S (String.length (q +:+ String c "") - 1))%nat
    by (rewrite str_length_app; simpl; lia).
  exact IH.
Qed.

Lemma slice_last_inv (s t : string) :
  s <> "" -> GoString.slice_from (String.length s - 1) s = Some t ->
  exists q c, s = q +:+ String c "" /\ t = String c "".
Proof.
  induction s as [|d s IH]; intros Hne H; [congruence|].
  destruct s as [|e s].
  - simpl in H. inversion H; subst. exists "", d. split; reflexivity.
  - assert (Hs : String e s <> "") by discriminate.
    replace (String.length (String d (String e s)) - 1)%nat
      with (S (String.length (String e s) - 1))%nat in H by (simpl; lia).
    simpl GoString.slice_from in H.
    destruct (IH Hs H) as (q & c & Hq & Ht).
    exists (String d q), c. split; [now rewrite str_app_cons, <- Hq | exact Ht].
Qed.


Lemma slash_app (s : string) : "/" +:+ s = String (Ascii.ascii_of_N 47) s.
Proof. reflexivity. Qed.

Lemma last_byte (s : string) :
  s <> "" -> exists q c, s = q +:+ String c "".
Proof.
  induction s as [|d s IH]; intros Hne; [congruence|].
  destruct s as [|e s].
  - exists "", d. reflexivity.
  - destruct IH as (q & c & Hq); [discriminate|].
    exists (String d q), c. now rewrite str_app_cons, <- Hq.
Qed.

Lemma str_eqb_false (s t : string) : s <> t -> String.eqb s t = false.
Proof. intros H. now apply String.eqb_neq. Qed.

Lemma directory_true_iff (p : string) :
  directory p = true <-> p = "" \/ exists q, p = q +:+ "/".
Proof.
  unfold directory. split.
  - destruct (String.eqb_spec p "") as [->|Hne]; [now left|]. simpl.
    destruct (GoString.slice_from (String.length p - 1) p) as [t|] eqn:E;
      [|discriminate].
    intros Ht. apply String.eqb_eq in Ht. subst t.
    destruct (slice_last_inv p "/" Hne E) as (q & c & Hq & Hc).
    right. exists q. now rewrite Hc.
  - intros [->|(q & ->)]; [reflexivity|].
    change (q +:+ "/") with (q +:+ String (Ascii.ascii_of_N 47) "").
    rewrite slice_last_app. apply orb_true_r.
Qed.

Lemma directory_app_homepage (p : string) :
  Homepage config <> "" -> directory p = true ->
  storageKey p = p +:+ Homepage config.
Proof. intros _ H. unfold storageKey. now rewrite H. Qed.

(** *** Running the handlers *)

Lemma noFile_run (path : string) (wd : World) :
  noFile path wd = (Some (directory path), wd).
Proof.
  unfold noFile, directory.
  destruct (String.eqb_spec path "") as [->|Hne]; [reflexivity|]. simpl.
  destruct (last_byte path Hne) as (q & c & ->).
  unfold bind, slice. rewrite slice_last_app. reflexivity.
Qed.

(** A request for a directory when no index page is configured is
    answered at once. *)
Lemma methodHandler_no_index (m : string) (c : Ascii.ascii) (p : string)
    (h : Header) (b : RequestBody) (w : ResponseWriter) (bk : St) (cs : list Call) :
  directory p = true -> Homepage config = "" ->
  methodHandler (mkWorld (mkRequest m (String c p) h b) w bk cs)
  = (Some tt,
     mkWorld (mkRequest m (String c p) h b)
       (Http.Error "Path must be provided" StatusBadRequest w) bk cs).
Proof.
  intros Hd Hh. unfold methodHandler, bind, getRequest, slice. simpl.
  rewrite noFile_run, Hd, Hh. reflexivity.
Qed.

(** Any other request reaches the [switch], with the index page appended
    to the path of a directory. *)
Lemma methodHandler_dispatch (m : string) (p : string)
    (h : Header) (b : RequestBody) (w : ResponseWriter) (bk : St) (cs : list Call) :
  (directory p = true -> Homepage config <> "") ->
  methodHandler (mkWorld (mkRequest m ("/" +:+ p) h b) w bk cs)
  = dispatch m (mkWorld (mkRequest m ("/" +:+ storageKey p) h b) w bk cs).
Proof.
  intros Hs. unfold storageKey. rewrite !slash_app.
  unfold methodHandler, bind, getRequest, slice. simpl.
  rewrite noFile_run. destruct (directory p) eqn:Hd; [|reflexivity].
  rewrite str_eqb_false by auto. reflexivity.
Qed.

(** *** The response writer *)

Lemma Header_Get_Set_eq (k k' v : string) (h : Header) :
  CanonicalHeaderKey k = CanonicalHeaderKey k' ->
  Header_Get (Header_Set k v h) k' = v.
Proof.
  intros E. unfold Header_Get, Header_Set. rewrite E.
  now rewrite lookup_insert_eq.
Qed.

Lemma Header_Get_Set_ne (k k' v : string) (h : Header) :
  CanonicalHeaderKey k <> CanonicalHeaderKey k' ->
  Header_Get (Header_Set k v h) k' = Header_Get h k'.
Proof.
  intros E. unfold Header_Get, Header_Set. now rewrite lookup_insert_ne.
Qed.

Lemma WriteHeader_unsent (code : Z) (w : ResponseWriter) :
  0 < code -> rw_sent w = None ->
  WriteHeader code w
  = mkResponseWriter (rw_header w) code None (rw_body w).
Proof.
  intros Hc Hs. unfold WriteHeader, Written. rewrite Hs.
  destruct (Z.ltb_spec 0 code) as [_|]; [|lia].
  destruct (Z.eqb_spec (rw_status w) code) as [E|_]; simpl.
  - destruct w; simpl in *. now subst.
  - reflexivity.
Qed.

Lemma response_unsent (w : ResponseWriter) :
  rw_sent w = None -> rw_status w <> 404 ->
  response w = mkResponse (rw_status w) (rw_header w) (rw_body w).
Proof.
  intros Hs Hc. unfold response, serveError, Written, WriteHeaderNow.
  rewrite Hs. unfold StatusNotFound.
  destruct (Z.eqb_spec (rw_status w) 404); [contradiction|]. reflexivity.
Qed.


Lemma response_Write (data : string) (w : ResponseWriter) :
  rw_sent w = None ->
  response (Write data w)
  = mkResponse (rw_status w) (rw_header w) (rw_body w +:+ data).
Proof.
  intros Hs. unfold response, serveError, Written, Write, WriteHeaderNow.
  now rewrite Hs.
Qed.

Lemma response_io_Copy (data : string) (w : ResponseWriter) :
  rw_sent w = None -> rw_status w <> 404 ->
  response (io_Copy data w)
  = mkResponse (rw_status w) (rw_header w) (rw_body w +:+ data).
Proof.
  intros Hs Hc. unfold io_Copy.
  destruct (String.eqb_spec data "") as [->|_].
  - now rewrite response_unsent, str_app_nil_r.
  - now apply response_Write.
Qed.

Lemma response_Error (error : string) (code : Z) (w : ResponseWriter) :
  0 < code -> rw_sent w = None ->
  response (Http.Error error code w)
  = mkResponse code
      (Header_Set "X-Content-Type-Options" "nosniff"
         (Header_Set "Content-Type" "text/plain; charset=utf-8" (rw_header w)))
      (rw_body w +:+ error).
Proof.
  intros Hc Hs. unfold Http.Error.
  rewrite response_Write; rewrite WriteHeader_unsent; auto.
Qed.

(** *** The handlers, run on a request *)

Lemma handleHTTPException_returns (path : string) (w : ResponseWriter)
    (err : option error) :
  (handleHTTPException path w err).2 = err.
Proof.
  unfold handleHTTPException.
  destruct err as [[a|t]|]; try reflexivity.
  repeat (match goal with |- context [if ?c then _ else _] => destruct c end);
    reflexivity.
Qed.

Lemma handleException_run (path : string) (err : option error) (wd : World) :
  handleException path err wd
  = (Some err,
     mkWorld (Req wd) (handleHTTPException path (Writer wd) err).1
       (Bucket wd) (Calls wd)).
Proof.
  unfold handleException.
  pose proof (handleHTTPException_returns path (Writer wd) err) as H.
  destruct (handleHTTPException path (Writer wd) err) as [w' e].
  simpl in *. now subst.
Qed.

Ltac run_handler :=
  unfold serveGetS3File, serveHeadS3File, servePutS3File, serveDeleteS3File,
    bind, getRequest, slice, call, onWriter, deref, ret, panic, ReadAll;
  cbn [Req Writer Bucket Calls URL_Path Method ReqHeader ReqBody
       GoString.slice_from fst snd fmap option_fmap option_map].

Lemma serveGetS3File_found (m : string) (c : Ascii.ascii) (key : string)
    (h : Header) (b : RequestBody) (w : ResponseWriter) (bk bk' : St)
    (cs : list Call) (out : GetObjectOutput.t)
    (contentType etag : string) (contentLength : Z) (lastModified : Time) :
  GetObject s3Session (GetObjectInput.mk (S3bucket config) key) bk
  = ((out, None), bk') ->
  GetObjectOutput.ContentType out = Some contentType ->
  GetObjectOutput.LastModified out = Some lastModified ->
  GetObjectOutput.ETag out = Some etag ->
  GetObjectOutput.ContentLength out = Some contentLength ->
  serveGetS3File (mkWorld (mkRequest m (String c key) h b) w bk cs)
  = (Some tt,
     mkWorld (mkRequest m (String c key) h b)
       (io_Copy (GetObjectOutput.Body out)
          (SetHeader "Content-Length" (GoString.sprintf_d contentLength)
             (SetHeader "Etag" etag
                (SetHeader "Last-Modified" (Time_String lastModified)
                   (SetHeader "Content-Type" contentType
                      (WriteHeader StatusOK w))))))
       bk' (cs ++ [CallGet (GetObjectInput.mk (S3bucket config) key)])).
Proof.
  intros Hget Hct Hlm Het Hcl. run_handler.
  rewrite Hget, handleException_run. cbn [handleHTTPException fst].
  run_handler. rewrite Hct, Hlm, Het, Hcl. reflexivity.
Qed.


Lemma rw_body_Error (error : string) (code : Z) (w : ResponseWriter) :
  rw_body (Http.Error error code w) = rw_body w +:+ error.
Proof.
  unfold Http.Error, Write, WriteHeaderNow, WriteHeader, SetHeader.
  repeat (match goal with |- context [if ?c then _ else _] => destruct c end);
    cbn [rw_body rw_sent rw_header rw_status];
    destruct (rw_sent w); reflexivity.
Qed.

Lemma Error_writes (error : string) (code : Z) (w : ResponseWriter) :
  error <> "" -> Http.Error error code w <> w.
Proof.
  intros Hne E. apply (f_equal rw_body) in E. rewrite rw_body_Error in E.
  apply (f_equal String.length) in E. rewrite str_length_app in E.
  destruct error; [congruence | simpl in E; lia].
Qed.

(** The message and the status [handleHTTPException] replies with. *)
Lemma handleHTTPException_Error (path : string) (w : ResponseWriter) (e : error) :
  exists message code,
    handleHTTPException path w (Some e) = (Http.Error message code w, Some e)
    /\ message <> ""
    /\ (code = 304 \/ code = 400 \/ code = 404 \/ code = 500).
Proof.
  unfold handleHTTPException. destruct e as [a|t].
  - destruct (String.eqb (Code a) "MissingContentLength").
    { exists "Bad Request", 400.
      split; [reflexivity|]. split; [discriminate|]. right; left; reflexivity. }
    destruct (String.eqb (Code a) "NotModified").
    { exists "Object not modified", 304.
      split; [reflexivity|]. split; [discriminate|]. left; reflexivity. }
    destruct (String.eqb (Code a) "NoSuchKey" || String.eqb (Code a) "NotFound").
    { exists ("Path '" +:+ path +:+ "' not found: " +:+ Message a), 404.
      split; [reflexivity|]. split; [discriminate|].
      right; right; left; reflexivity. }
    eexists _, 500.
    split; [reflexivity|]. split; [discriminate|].
    right; right; right; reflexivity.
  - exists ("An internal error occurred: " +:+ t), 500.
    split; [reflexivity|]. split; [discriminate|].
    right; right; right; reflexivity.
Qed.

Ltac split_derefs :=
  repeat match goal with
         | |- context [match ?o with Some _ => _ | None => _ end] =>
             destruct o; cbn [fst snd Req Writer Bucket Calls]
         end.

Lemma serveHeadS3File_failed (m : string) (c : Ascii.ascii) (key : string)
    (h : Header) (b : RequestBody) (w : ResponseWriter) (bk bk' : St)
    (cs : list Call) (out : HeadObjectOutput.t) (e : error) :
  let token := Header_Get h "ETag" in
  let input :=
    HeadObjectInput.mk (S3bucket config) key
      (if String.eqb token "" then None else Some token) in
  HeadObject s3Session input bk = ((out, Some e), bk') ->
  serveHeadS3File (mkWorld (mkRequest m (String c key) h b) w bk cs)
  = (Some tt,
     mkWorld (mkRequest m (String c key) h b)
       (handleHTTPException key w (Some e)).1 bk' (cs ++ [CallHead input])).
Proof.
  intros token input Hhead. run_handler. fold token. fold input.
  rewrite Hhead, handleException_run. reflexivity.
Qed.

Lemma serveHeadS3File_calls (m : string) (c : Ascii.ascii) (key : string)
    (h : Header) (b : RequestBody) (w : ResponseWriter) (bk : St) (cs : list Call) :
  let token := Header_Get h "ETag" in
  Calls (serveHeadS3File (mkWorld (mkRequest m (String c key) h b) w bk cs)).2
  = cs ++ [CallHead (HeadObjectInput.mk (S3bucket config) key
                       (if String.eqb token "" then None else Some token))].
Proof.
  intros token. run_handler. fold token.
  destruct (HeadObject s3Session _ bk) as [[out err] bk'].
  rewrite handleException_run. cbn [fst snd Req Writer Bucket Calls].
  destruct err; [reflexivity|]. split_derefs; reflexivity.
Qed.

Lemma serveGetS3File_calls (m : string) (c : Ascii.ascii) (key : string)
    (h : Header) (b : RequestBody) (w : ResponseWriter) (bk : St) (cs : list Call) :
  Calls (serveGetS3File (mkWorld (mkRequest m (String c key) h b) w bk cs)).2
  = cs ++ [CallGet (GetObjectInput.mk (S3bucket config) key)].
Proof.
  run_handler.
  destruct (GetObject s3Session _ bk) as [[out err] bk'].
  rewrite handleException_run. cbn [fst snd Req Writer Bucket Calls].
  destruct err; [reflexivity|]. split_derefs; reflexivity.
Qed.

Lemma serveDeleteS3File_calls (m : string) (c : Ascii.ascii) (key : string)
    (h : Header) (b : RequestBody) (w : ResponseWriter) (bk : St) (cs : list Call) :
  Calls (serveDeleteS3File (mkWorld (mkRequest m (String c key) h b) w bk cs)).2
  = cs ++ [CallDelete (DeleteObjectInput.mk (S3bucket config) key)].
Proof.
  run_handler.
  destruct (DeleteObject s3Session _ bk) as [[out err] bk'].
  rewrite handleException_run. cbn [fst snd Req Writer Bucket Calls].
  destruct err; reflexivity.
Qed.

(** A PUT whose body cannot be read stops before the store is called. *)
Lemma servePutS3File_unread (m : string) (c : Ascii.ascii) (key : string)
    (h : Header) (b : RequestBody) (w : ResponseWriter) (bk : St)
    (cs : list Call) (text : string) :
  body_err b = Some text ->
  servePutS3File (mkWorld (mkRequest m (String c key) h b) w bk cs)
  = (Some tt,
     mkWorld (mkRequest m (String c key) h b)
       (Http.Error ("An internal error occurred: " +:+ text)
          StatusInternalServerError w) bk cs).
Proof.
  intros Hb. run_handler. rewrite Hb. cbn [fmap option_fmap option_map].
  rewrite handleException_run. reflexivity.
Qed.

Lemma servePutS3File_calls (m : string) (c : Ascii.ascii) (key : string)
    (h : Header) (b : RequestBody) (w : ResponseWriter) (bk : St) (cs : list Call) :
  body_err b = None ->
  Calls (servePutS3File (mkWorld (mkRequest m (String c key) h b) w bk cs)).2
  = cs ++ [CallPut (PutObjectInput.mk (S3bucket config) key (body_bytes b))].
Proof.
  intros Hb. run_handler. rewrite Hb. cbn [fmap option_fmap option_map].
  rewrite handleException_run. cbn [handleHTTPException fst snd Req Writer Bucket Calls].
  destruct (PutObject s3Session _ bk) as [[out err] bk'].
  rewrite handleException_run. cbn [fst snd Req Writer Bucket Calls].
  destruct err; [reflexivity|]. split_derefs; reflexivity.
Qed.

Lemma servePutS3File_created (m : string) (c : Ascii.ascii) (key : string)
    (h : Header) (b : RequestBody) (w : ResponseWriter) (bk bk' : St)
    (cs : list Call) (out : PutObjectOutput.t) (etag : string) :
  body_err b = None ->
  PutObject s3Session
    (PutObjectInput.mk (S3bucket config) key (body_bytes b)) bk
  = ((out, None), bk') ->
  PutObjectOutput.ETag out = Some etag ->
  servePutS3File (mkWorld (mkRequest m (String c key) h b) w bk cs)
  = (Some tt,
     mkWorld (mkRequest m (String c key) h b)
       (Redirect url_relative redirect_note m (String c key) ("/" +:+ key)
          StatusCreated (SetHeader "ETag" etag w))
       bk' (cs ++ [CallPut (PutObjectInput.mk (S3bucket config) key (body_bytes b))])).
Proof.
  intros Hb Hput Het. run_handler. rewrite Hb. cbn [fmap option_fmap option_map].
  rewrite handleException_run. cbn [handleHTTPException fst snd Req Writer Bucket Calls].
  rewrite Hput, handleException_run.
  cbn [handleHTTPException fst snd Req Writer Bucket Calls].
  rewrite Het. reflexivity.
Qed.

(** A method outside the [switch] is refused without a store call. *)
Lemma dispatch_default (m : string) (wd : World) :
  m <> "GET" -> m <> "PUT" -> m <> "DELETE" -> m <> "HEAD" ->
  dispatch m wd
  = (Some tt,
     mkWorld (Req wd)
       (Http.Error ("Method " +:+ m +:+ " not supported")
          StatusMethodNotAllowed (Writer wd))
       (Bucket wd) (Calls wd)).
Proof.
  intros H1 H2 H3 H4. unfold dispatch. now rewrite !str_eqb_false by assumption.
Qed.

(** *** Redirect targets *)

Lemma is_byte_eq (n : N) (c : Ascii.ascii) :
  (n < 256)%N -> is_byte n c = true -> c = Ascii.ascii_of_N n.
Proof.
  unfold is_byte. intros _ H. apply N.eqb_eq in H.
  now rewrite <- (Ascii.ascii_N_embedding c), H.
Qed.

Lemma segments_not_nil (s : string) : segments s <> [].
Proof.
  destruct s as [|c s]; simpl; [discriminate|].
  destruct (is_byte 47 c); [discriminate|].
  destruct (segments s); discriminate.
Qed.

Lemma join_cons_byte (c : Ascii.ascii) (elem : string) (elems : list string) :
  join (String c elem :: elems) = String c (join (elem :: elems)).
Proof. destruct elems; reflexivity. Qed.

(** Splitting a path at its slashes and joining the elements again gives
    the path back. *)
Lemma join_segments (s : string) : join (segments s) = s.
Proof.
  induction s as [|c s IH]; [reflexivity|].
  cbn [segments]. destruct (is_byte 47 c) eqn:Hc.
  - apply is_byte_eq in Hc; [subst c | reflexivity].
    pose proof (segments_not_nil s) as Hne.
    destruct (segments s) as [|elem elems] eqn:E; [congruence|].
    change (join ("" :: elem :: elems))
      with ("" +:+ "/" +:+ join (elem :: elems)).
    now rewrite IH.
  - pose proof (segments_not_nil s) as Hne.
    destruct (segments s) as [|elem elems] eqn:E; [congruence|].
    now rewrite join_cons_byte, IH.
Qed.

Lemma clean_plain_elements (rooted : bool) (elems out : list string) (dotdot : nat) :
  forallb plainElement elems = true ->
  fold_left (clean_element rooted) elems (out, dotdot)
  = (rev elems ++ out, dotdot).
Proof.
  revert out. induction elems as [|elem elems IH]; intros out H; [reflexivity|].
  cbn [forallb] in H. apply andb_true_iff in H as [He Hrest].
  cbn [fold_left rev]. rewrite <- app_assoc. cbn [app].
  rewrite <- (IH (elem :: out) Hrest). f_equal.
  unfold plainElement in He.
  apply andb_true_iff in He as [He H3]. apply andb_true_iff in He as [H1 H2].
  unfold clean_element.
  destruct (String.eqb elem ""); [discriminate|].
  destruct (String.eqb elem "."); [discriminate|].
  destruct (String.eqb elem ".."); [discriminate|]. reflexivity.
Qed.

Lemma path_Clean_plain (key : string) :
  forallb plainElement (segments key) = true ->
  path_Clean (String (Ascii.ascii_of_N 47) key) = String (Ascii.ascii_of_N 47) key.
Proof.
  intros H. unfold path_Clean.
  change (is_byte 47 (Ascii.ascii_of_N 47)) with true. cbv iota zeta.
  rewrite (clean_plain_elements true _ [] 0 H). cbn [fst].
  now rewrite app_nil_r, rev_involutive, join_segments.
Qed.

Lemma cut_query_plain (s : string) :
  plainBytes s = true -> cut_query s = (s, "").
Proof.
  induction s as [|c s IH]; [reflexivity|].
  cbn [plainBytes cut_query]. intros H.
  apply andb_true_iff in H as [H Hs]. apply andb_true_iff in H as [_ Hq].
  destruct (is_byte 63 c); [discriminate|]. now rewrite (IH Hs).
Qed.

Lemma hexEscapeNonASCII_plain (s : string) :
  plainBytes s = true -> hexEscapeNonASCII s = s.
Proof.
  induction s as [|c s IH]; [reflexivity|].
  cbn [plainBytes hexEscapeNonASCII]. intros H.
  apply andb_true_iff in H as [H Hs]. apply andb_true_iff in H as [Ha _].
  apply N.ltb_lt in Ha.
  destruct (N.leb_spec 128 (Ascii.N_of_ascii c)); [lia|]. now rewrite (IH Hs).
Qed.

(** A rooted plain key goes through [http.Redirect] unchanged, however
    [url.Parse] reads it. *)
Lemma redirect_target_plain (relative : string -> bool) (oldpath key : string) :
  plainKey key = true ->
  hexEscapeNonASCII (redirect_target relative oldpath ("/" +:+ key))
  = "/" +:+ key.
Proof.
  unfold plainKey. intros H. apply andb_true_iff in H as [Helems Hbytes].
  rewrite slash_app.
  assert (Hall : plainBytes (String (Ascii.ascii_of_N 47) key) = true)
    by (cbn [plainBytes]; now rewrite Hbytes).
  unfold redirect_target. destruct (relative _).
  - change (is_byte 47 (Ascii.ascii_of_N 47)) with true. cbv iota.
    rewrite (cut_query_plain _ Hall), (path_Clean_plain _ Helems).
    rewrite andb_negb_r, str_app_nil_r.
    now apply hexEscapeNonASCII_plain.
  - now apply hexEscapeNonASCII_plain.
Qed.

Lemma response_Redirect_no_body (relative : string -> bool)
    (note : string -> Z -> string) (m oldpath url : string) (code : Z)
    (w : ResponseWriter) :
  m <> "GET" -> m <> "HEAD" -> 0 < code -> code <> 404 -> rw_sent w = None ->
  response (Redirect relative note m oldpath url code w)
  = mkResponse code
      (Header_Set "Location"
         (hexEscapeNonASCII (redirect_target relative oldpath url))
         (rw_header w))
      (rw_body w).
Proof.
  intros H1 H2 Hc H404 Hs. unfold Redirect.
  rewrite !str_eqb_false by assumption. rewrite !andb_false_r.
  rewrite WriteHeader_unsent by (exact Hc || exact Hs).
  now rewrite response_unsent.
Qed.

Lemma endsWithSeparator_app (q : string) :
  Spec.endsWithSeparator (q +:+ "/") = true.
Proof.
  induction q as [|c q IH]; [reflexivity|].
  rewrite str_app_cons. simpl. rewrite IH.
  destruct (q +:+ "/") eqn:E; [|reflexivity].
  apply (f_equal String.length) in E. rewrite str_length_app in E. simpl in E. lia.
Qed.

Ltac header_lookup :=
  unfold SetHeader; cbn [Headers rw_header rw_status rw_sent rw_body];
  repeat (rewrite Header_Get_Set_ne by (vm_compute; discriminate));
  rewrite Header_Get_Set_eq by reflexivity; reflexivity.

(** *** The claims *)

(** C1. A GET whose key exists in the backing store (the store's get
    operation succeeds for the resolved key and returns the object with its
    metadata) is answered with status 200, the headers Content-Type,
    Last-Modified, Etag and Content-Length taken from that metadata, and
    the object's bytes as body. *)
Theorem get_found_reply (p : string) (h : Header) (b : RequestBody) (s0 : Z)
    (bk bk' : St) (out : GetObjectOutput.t)
    (contentType etag : string) (contentLength : Z) (lastModified : Time) :
  (directory p = true -> Homepage config <> "") ->
  GetObject s3Session (GetObjectInput.mk (S3bucket config) (storageKey p)) bk
  = ((out, None), bk') ->
  GetObjectOutput.ContentType out = Some contentType ->
  GetObjectOutput.LastModified out = Some lastModified ->
  GetObjectOutput.ETag out = Some etag ->
  GetObjectOutput.ContentLength out = Some contentLength ->
  exists wd,
    methodHandler (arrive (mkRequest "GET" ("/" +:+ p) h b) s0 bk) = (Some tt, wd)
    /\ Status (response (Writer wd)) = 200
    /\ Header_Get (Headers (response (Writer wd))) "Content-Type" = contentType
    /\ Header_Get (Headers (response (Writer wd))) "Last-Modified"
       = Time_String lastModified
    /\ Header_Get (Headers (response (Writer wd))) "Etag" = etag
    /\ Header_Get (Headers (response (Writer wd))) "Content-Length"
       = GoString.sprintf_d contentLength
    /\ Body (response (Writer wd)) = GetObjectOutput.Body out.
Proof.
  intros Hs Hget Hct Hlm Het Hcl. eexists. split.
  - unfold arrive. rewrite methodHandler_dispatch by exact Hs.
    rewrite slash_app. change (dispatch "GET") with serveGetS3File.
    eapply serveGetS3File_found; eassumption.
  - cbn [Writer].
    rewrite WriteHeader_unsent by (reflexivity || (unfold StatusOK; lia)).
    rewrite response_io_Copy by (reflexivity || discriminate).
    repeat split; header_lookup.
Qed.

(** C2 (as amended). The classification of errors is total: for a
    backing-store failure, code NotModified gives status 304, codes
    NoSuchKey and NotFound give 404 with body
    "Path '<key>' not found: <message>", code MissingContentLength gives 400
    with the fixed body "Bad Request", and every other code gives 500 with
    body "An internal error occurred: <code> = <message>", followed by
    " (Cause: <cause>)" exactly when a cause is present; an error that is
    no backing-store failure gives 500 with body
    "An internal error occurred: <error text>".  Every error gets one of
    the statuses 304, 400, 404, 500. *)
Theorem handleHTTPException_classification (path : string) (s0 : Z) (err : error) :
  let resp := response (handleHTTPException path (newResponseWriter s0) (Some err)).1 in
  (forall e, err = AwsErr e -> Code e = "NotModified" -> Status resp = 304)
  /\ (forall e, err = AwsErr e -> Code e = "NoSuchKey" \/ Code e = "NotFound" ->
        Status resp = 404
        /\ Body resp = "Path '" +:+ path +:+ "' not found: " +:+ Message e)
  /\ (forall e, err = AwsErr e -> Code e = "MissingContentLength" ->
        Status resp = 400 /\ Body resp = "Bad Request")
  /\ (forall e, err = AwsErr e ->
        Code e <> "NotModified" -> Code e <> "NoSuchKey" ->
        Code e <> "NotFound" -> Code e <> "MissingContentLength" ->
        Status resp = 500
        /\ (forall cause, OrigErr e = Some cause ->
              Body resp = "An internal error occurred: " +:+ Code e +:+ " = "
                          +:+ Message e +:+ " (Cause: " +:+ cause +:+ ")")
        /\ (OrigErr e = None ->
              Body resp = "An internal error occurred: " +:+ Code e +:+ " = "
                          +:+ Message e))
  /\ (forall text, err = PlainErr text ->
        Status resp = 500 /\ Body resp = "An internal error occurred: " +:+ text)
  /\ (Status resp = 304 \/ Status resp = 400 \/ Status resp = 404
      \/ Status resp = 500).
Proof.
  intros resp. subst resp.
  split; [|split; [|split; [|split; [|split]]]].
  - intros e -> Hc. unfold handleHTTPException. rewrite Hc. simpl.
    now rewrite response_Error by reflexivity.
  - intros e -> [Hc|Hc]; unfold handleHTTPException; rewrite Hc; simpl;
      now rewrite response_Error by reflexivity.
  - intros e -> Hc. unfold handleHTTPException. rewrite Hc. simpl.
    now rewrite response_Error by reflexivity.
  - intros e -> H1 H2 H3 H4. unfold handleHTTPException.
    rewrite !str_eqb_false by assumption. simpl.
    rewrite response_Error by reflexivity. cbn [Status Body rw_body newResponseWriter].
    split; [reflexivity|]. split.
    + now intros cause ->.
    + intros ->. now rewrite str_app_nil_r.
  - intros text ->. simpl. now rewrite response_Error by reflexivity.
  - destruct (handleHTTPException_Error path (newResponseWriter s0) err)
      as (message & code & -> & _ & Hcode).
    cbn [fst]. rewrite response_Error by (reflexivity || lia). exact Hcode.
Qed.

(** C10. The exception handler returns its error argument unchanged; on a
    nil error it leaves the response writer as it was (no status, header
    or body written), and on a non-nil error it writes exactly one error
    response, so the writer is written to if and only if the error is
    non-nil. *)
Theorem handleHTTPException_writes_iff (path : string) (w : ResponseWriter)
    (err : option error) :
  (handleHTTPException path w err).2 = err
  /\ handleHTTPException path w None = (w, None)
  /\ (forall e, exists message code,
        handleHTTPException path w (Some e) = (Http.Error message code w, Some e)
        /\ Http.Error message code w <> w)
  /\ ((handleHTTPException path w err).1 = w <-> err = None).
Proof.
  split; [apply handleHTTPException_returns|].
  split; [reflexivity|].
  assert (Hsome : forall e, exists message code,
            handleHTTPException path w (Some e) = (Http.Error message code w, Some e)
            /\ Http.Error message code w <> w).
  { intros e.
    destruct (handleHTTPException_Error path w e) as (message & code & H & Hne & _).
    exists message, code. split; [exact H | now apply Error_writes]. }
  split; [exact Hsome|]. split.
  - destruct err as [e|]; [|reflexivity].
    destruct (Hsome e) as (message & code & -> & Hne). intros E. now destruct Hne.
  - now intros ->.
Qed.

(** C3 (as amended). For every HEAD request the conditional-match token
    is taken from the request's ETag header (no token when that header is
    absent or empty) and passed as IfNoneMatch to the backing store's head
    operation, the one call issued; when the store reports the object
    unchanged (code NotModified), the response has status 304. *)
Theorem head_conditional_token (p : string) (h : Header) (b : RequestBody)
    (s0 : Z) (bk : St) :
  (directory p = true -> Homepage config <> "") ->
  let token := Header_Get h "ETag" in
  let input :=
    HeadObjectInput.mk (S3bucket config) (storageKey p)
      (if String.eqb token "" then None else Some token) in
  let run := methodHandler (arrive (mkRequest "HEAD" ("/" +:+ p) h b) s0 bk) in
  Calls run.2 = [CallHead input]
  /\ (forall out e bk',
        HeadObject s3Session input bk = ((out, Some (AwsErr e)), bk') ->
        Code e = "NotModified" ->
        exists wd,
          run = (Some tt, wd)
          /\ Status (response (Writer wd)) = 304
          /\ Body (response (Writer wd)) = "Object not modified").
Proof.
  intros Hs token input run. subst run. unfold arrive.
  rewrite methodHandler_dispatch by exact Hs. rewrite slash_app.
  change (dispatch "HEAD") with serveHeadS3File. split.
  - now rewrite serveHeadS3File_calls.
  - intros out e bk' Hhead Hc. eexists. split.
    + now apply (serveHeadS3File_failed _ _ _ _ _ _ _ _ _ _ _ Hhead).
    + cbn [Writer]. unfold handleHTTPException. rewrite Hc. simpl.
      now rewrite response_Error by reflexivity.
Qed.

(** C4. For a request path that is empty after stripping the leading
    separator, or ends in a separator, and a non-empty default index name,
    the resolved storage key is the stripped path followed by the index
    name, with the fallback flag set; the handlers read that key back from
    the request, and every store call is issued against it: the one get,
    head or delete call of a GET, HEAD or DELETE, and the one put call of
    a PUT whose body was read. *)
Theorem index_fallback_key (p m : string) (h : Header) (b : RequestBody)
    (s0 : Z) (bk : St) :
  p = "" \/ (exists q, p = q +:+ "/") ->
  Homepage config <> "" ->
  let key := p +:+ Homepage config in
  let run := methodHandler (arrive (mkRequest m ("/" +:+ p) h b) s0 bk) in
  Spec.resolve ("/" +:+ p) (Homepage config) = Spec.Resolved key true
  /\ storageKey p = key
  /\ (m = "GET" ->
      Calls run.2 = [CallGet (GetObjectInput.mk (S3bucket config) key)])
  /\ (m = "HEAD" ->
      exists token,
        Calls run.2 = [CallHead (HeadObjectInput.mk (S3bucket config) key token)])
  /\ (m = "DELETE" ->
      Calls run.2 = [CallDelete (DeleteObjectInput.mk (S3bucket config) key)])
  /\ (m = "PUT" -> body_err b = None ->
      Calls run.2
      = [CallPut (PutObjectInput.mk (S3bucket config) key (body_bytes b))]).
Proof.
  intros Hp Hh key run.
  assert (Hd : directory p = true) by now apply directory_true_iff.
  assert (Hk : storageKey p = key) by now apply directory_app_homepage.
  assert (Hrun : run = dispatch m
            (mkWorld (mkRequest m (String (Ascii.ascii_of_N 47) key) h b)
               (newResponseWriter s0) bk [])).
  { subst run. unfold arrive. rewrite methodHandler_dispatch by auto.
    now rewrite Hk, slash_app. }
  split; [|split; [exact Hk|]].
  - unfold Spec.resolve. rewrite slash_app. cbn [Spec.strip].
    change (N.eqb (Ascii.N_of_ascii (Ascii.ascii_of_N 47)) 47) with true.
    cbv iota. rewrite (str_eqb_false (Homepage config) "") by exact Hh.
    destruct Hp as [->|(q & ->)]; [reflexivity|].
    now rewrite endsWithSeparator_app, orb_true_r.
  - rewrite Hrun. repeat split; intros ->.
    + change (dispatch "GET") with serveGetS3File.
      now rewrite serveGetS3File_calls.
    + change (dispatch "HEAD") with serveHeadS3File.
      rewrite serveHeadS3File_calls. eexists. reflexivity.
    + change (dispatch "DELETE") with serveDeleteS3File.
      now rewrite serveDeleteS3File_calls.
    + intros Hb. change (dispatch "PUT") with servePutS3File.
      now rewrite servePutS3File_calls.
Qed.

(** C5. For a request path that is empty after stripping the leading
    separator, or ends in a separator, and an empty default index name,
    the response has status 400 and body "Path must be provided", and no
    backing-store call is issued. *)
Theorem no_index_bad_request (p m : string) (h : Header) (b : RequestBody)
    (s0 : Z) (bk : St) :
  p = "" \/ (exists q, p = q +:+ "/") ->
  Homepage config = "" ->
  exists wd,
    methodHandler (arrive (mkRequest m ("/" +:+ p) h b) s0 bk) = (Some tt, wd)
    /\ Status (response (Writer wd)) = 400
    /\ Body (response (Writer wd)) = "Path must be provided"
    /\ Calls wd = []
    /\ Bucket wd = bk.
Proof.
  intros Hp Hh. apply directory_true_iff in Hp. eexists. split.
  - unfold arrive. rewrite slash_app.
    now apply methodHandler_no_index.
  - cbn [Writer Calls Bucket]. now rewrite response_Error by reflexivity.
Qed.

(** C6 (as amended). For a request whose method is none of GET, HEAD, PUT,
    DELETE, and whose path names a file or meets a configured default
    index name, the response has status 405 and the message
    "Method <method> not supported", and no backing-store call is issued. *)
Theorem unsupported_method_refused (p m : string) (h : Header) (b : RequestBody)
    (s0 : Z) (bk : St) :
  m <> "GET" -> m <> "HEAD" -> m <> "PUT" -> m <> "DELETE" ->
  (directory p = true -> Homepage config <> "") ->
  exists wd,
    methodHandler (arrive (mkRequest m ("/" +:+ p) h b) s0 bk) = (Some tt, wd)
    /\ Status (response (Writer wd)) = 405
    /\ Body (response (Writer wd)) = "Method " +:+ m +:+ " not supported"
    /\ Calls wd = []
    /\ Bucket wd = bk.
Proof.
  intros H1 H2 H3 H4 Hs. eexists. split.
  - unfold arrive. rewrite methodHandler_dispatch by exact Hs.
    now apply dispatch_default.
  - cbn [Writer Calls Bucket]. now rewrite response_Error by reflexivity.
Qed.

(** C7 (as amended). A successful PUT is answered with status 201, an
    ETag header holding the version tag the store returned, and no body.
    Its Location header holds "/" followed by the resolved key as
    [http.Redirect] rewrites it: the path of a target read as relative is
    cleaned of empty, "." and ".." elements (a trailing slash is kept), and
    bytes outside ASCII are hex-escaped.  For a key whose elements are all
    names and whose bytes are all ASCII and no "?", that is "/" followed by
    the key itself. *)
Theorem put_created_reply (p : string) (h : Header) (b : RequestBody)
    (s0 : Z) (bk bk' : St) (out : PutObjectOutput.t) (etag : string) :
  (directory p = true -> Homepage config <> "") ->
  body_err b = None ->
  PutObject s3Session
    (PutObjectInput.mk (S3bucket config) (storageKey p) (body_bytes b)) bk
  = ((out, None), bk') ->
  PutObjectOutput.ETag out = Some etag ->
  exists wd,
    methodHandler (arrive (mkRequest "PUT" ("/" +:+ p) h b) s0 bk) = (Some tt, wd)
    /\ Status (response (Writer wd)) = 201
    /\ Header_Get (Headers (response (Writer wd))) "ETag" = etag
    /\ Header_Get (Headers (response (Writer wd))) "Location"
       = hexEscapeNonASCII
           (redirect_target url_relative ("/" +:+ storageKey p)
              ("/" +:+ storageKey p))
    /\ (plainKey (storageKey p) = true ->
        Header_Get (Headers (response (Writer wd))) "Location"
        = "/" +:+ storageKey p)
    /\ Body (response (Writer wd)) = "".
Proof.
  intros Hs Hb Hput Het. eexists. split.
  - unfold arrive. rewrite methodHandler_dispatch by exact Hs.
    rewrite slash_app. change (dispatch "PUT") with servePutS3File.
    eapply servePutS3File_created; eassumption.
  - cbn [Writer].
    rewrite response_Redirect_no_body by (discriminate || reflexivity).
    change (String (Ascii.ascii_of_N 47) (storageKey p))
      with ("/" +:+ storageKey p).
    assert (Hloc : Header_Get
              (Headers
                 (mkResponse StatusCreated
                    (Header_Set "Location"
                       (hexEscapeNonASCII
                          (redirect_target url_relative ("/" +:+ storageKey p)
                             ("/" +:+ storageKey p)))
                       (rw_header (SetHeader "ETag" etag (newResponseWriter s0))))
                    (rw_body (SetHeader "ETag" etag (newResponseWriter s0)))))
              "Location"
            = hexEscapeNonASCII
                (redirect_target url_relative ("/" +:+ storageKey p)
                   ("/" +:+ storageKey p))) by header_lookup.
    split; [reflexivity|]. split; [header_lookup|]. split; [exact Hloc|].
    split; [|reflexivity].
    intros Hplain. rewrite Hloc. now apply redirect_target_plain.
Qed.

(** C8. A PUT whose body read fails locally is answered as an internal
    error (status 500); no put operation is issued to the backing store,
    whose state stays as it was. *)
Theorem put_unread_body (p : string) (h : Header) (b : RequestBody)
    (s0 : Z) (bk : St) (text : string) :
  (directory p = true -> Homepage config <> "") ->
  body_err b = Some text ->
  exists wd,
    methodHandler (arrive (mkRequest "PUT" ("/" +:+ p) h b) s0 bk) = (Some tt, wd)
    /\ Status (response (Writer wd)) = 500
    /\ Body (response (Writer wd)) = "An internal error occurred: " +:+ text
    /\ Calls wd = []
    /\ Bucket wd = bk.
Proof.
  intros Hs Hb. eexists. split.
  - unfold arrive. rewrite methodHandler_dispatch by exact Hs.
    rewrite slash_app. change (dispatch "PUT") with servePutS3File.
    eapply servePutS3File_unread; eassumption.
  - cbn [Writer Calls Bucket]. now rewrite response_Error by reflexivity.
Qed.

(** C9. The path is resolved before the method is looked at: a request
    with an unsupported method whose path is empty or ends in a separator,
    when the default index name is empty, is answered with status 400 and
    body "Path must be provided", not with 405. *)
Theorem path_checked_before_method (p m : string) (h : Header) (b : RequestBody)
    (s0 : Z) (bk : St) :
  m <> "GET" -> m <> "HEAD" -> m <> "PUT" -> m <> "DELETE" ->
  p = "" \/ (exists q, p = q +:+ "/") ->
  Homepage config = "" ->
  exists wd,
    methodHandler (arrive (mkRequest m ("/" +:+ p) h b) s0 bk) = (Some tt, wd)
    /\ Status (response (Writer wd)) = 400
    /\ Body (response (Writer wd)) = "Path must be provided"
    /\ Status (response (Writer wd)) <> 405.
Proof.
  intros _ _ _ _ Hp Hh. apply directory_true_iff in Hp. eexists. split.
  - unfold arrive. rewrite slash_app.
    now apply methodHandler_no_index.
  - cbn [Writer]. now rewrite response_Error by reflexivity.
Qed.

(** *** Further properties of the handlers *)

(** The leading byte of the path is dropped whatever it is. *)
Lemma methodHandler_dispatch_byte (m : string) (c : Ascii.ascii) (p : string)
    (h : Header) (b : RequestBody) (w : ResponseWriter) (bk : St) (cs : list Call) :
  (directory p = true -> Homepage config <> "") ->
  methodHandler (mkWorld (mkRequest m (String c p) h b) w bk cs)
  = dispatch m (mkWorld (mkRequest m (String c (storageKey p)) h b) w bk cs).
Proof.
  intros Hs. unfold storageKey.
  unfold methodHandler, bind, getRequest, slice. simpl.
  rewrite noFile_run. destruct (directory p) eqn:Hd; [|reflexivity].
  rewrite str_eqb_false by auto. reflexivity.
Qed.

Lemma serveGetS3File_failed (m : string) (c : Ascii.ascii) (key : string)
    (h : Header) (b : RequestBody) (w : ResponseWriter) (bk bk' : St)
    (cs : list Call) (out : GetObjectOutput.t) (e : error) :
  GetObject s3Session (GetObjectInput.mk (S3bucket config) key) bk
  = ((out, Some e), bk') ->
  serveGetS3File (mkWorld (mkRequest m (String c key) h b) w bk cs)
  = (Some tt,
     mkWorld (mkRequest m (String c key) h b)
       (handleHTTPException key w (Some e)).1 bk'
       (cs ++ [CallGet (GetObjectInput.mk (S3bucket config) key)])).
Proof.
  intros Hget. run_handler. rewrite Hget, handleException_run. reflexivity.
Qed.

Lemma serveDeleteS3File_run (m : string) (c : Ascii.ascii) (key : string)
    (h : Header) (b : RequestBody) (w : ResponseWriter) (bk bk' : St)
    (cs : list Call) (out : DeleteObjectOutput.t) (err : option error) :
  DeleteObject s3Session (DeleteObjectInput.mk (S3bucket config) key) bk
  = ((out, err), bk') ->
  serveDeleteS3File (mkWorld (mkRequest m (String c key) h b) w bk cs)
  = (Some tt,
     mkWorld (mkRequest m (String c key) h b)
       (match err with
        | Some _ => (handleHTTPException key w err).1
        | None => WriteHeader StatusNoContent w
        end) bk'
       (cs ++ [CallDelete (DeleteObjectInput.mk (S3bucket config) key)])).
Proof.
  intros Hdel. run_handler. rewrite Hdel, handleException_run.
  destruct err; reflexivity.
Qed.

Lemma servePutS3File_failed (m : string) (c : Ascii.ascii) (key : string)
    (h : Header) (b : RequestBody) (w : ResponseWriter) (bk bk' : St)
    (cs : list Call) (out : PutObjectOutput.t) (e : error) :
  body_err b = None ->
  PutObject s3Session
    (PutObjectInput.mk (S3bucket config) key (body_bytes b)) bk
  = ((out, Some e), bk') ->
  servePutS3File (mkWorld (mkRequest m (String c key) h b) w bk cs)
  = (Some tt,
     mkWorld (mkRequest m (String c key) h b)
       (handleHTTPException key w (Some e)).1 bk'
       (cs ++ [CallPut (PutObjectInput.mk (S3bucket config) key (body_bytes b))])).
Proof.
  intros Hb Hput. run_handler. rewrite Hb. cbn [fmap option_fmap option_map].
  rewrite handleException_run. cbn [handleHTTPException fst snd Req Writer Bucket Calls].
  rewrite Hput, handleException_run. reflexivity.
Qed.

Lemma servePutS3File_no_etag (m : string) (c : Ascii.ascii) (key : string)
    (h : Header) (b : RequestBody) (w : ResponseWriter) (bk bk' : St)
    (cs : list Call) (out : PutObjectOutput.t) :
  body_err b = None ->
  PutObject s3Session
    (PutObjectInput.mk (S3bucket config) key (body_bytes b)) bk
  = ((out, None), bk') ->
  PutObjectOutput.ETag out = None ->
  servePutS3File (mkWorld (mkRequest m (String c key) h b) w bk cs)
  = (None,
     mkWorld (mkRequest m (String c key) h b) w bk'
       (cs ++ [CallPut (PutObjectInput.mk (S3bucket config) key (body_bytes b))])).
Proof.
  intros Hb Hput Het. run_handler. rewrite Hb. cbn [fmap option_fmap option_map].
  rewrite handleException_run. cbn [handleHTTPException fst snd Req Writer Bucket Calls].
  rewrite Hput, handleException_run.
  cbn [handleHTTPException fst snd Req Writer Bucket Calls].
  rewrite Het. reflexivity.
Qed.


Lemma endsWithSeparator_inv (s : string) :
  Spec.endsWithSeparator s = true -> exists q, s = q +:+ "/".
Proof.
  induction s as [|c s IH]; [discriminate|].
  destruct s as [|d s].
  - simpl. intros Hc. exists "". apply N.eqb_eq in Hc.
    rewrite <- (Ascii.ascii_N_embedding c), Hc. reflexivity.
  - intros H. destruct IH as (q & Hq); [exact H|].
    exists (String c q). now rewrite str_app_cons, <- Hq.
Qed.

(** X1. A DELETE the store accepts is answered with status 204, no header
    and no body; the one call issued is the delete of the resolved key,
    and the bucket is left as that call left it. *)
Theorem delete_no_content (p : string) (h : Header) (b : RequestBody)
    (s0 : Z) (bk bk' : St) (out : DeleteObjectOutput.t) :
  (directory p = true -> Homepage config <> "") ->
  DeleteObject s3Session
    (DeleteObjectInput.mk (S3bucket config) (storageKey p)) bk
  = ((out, None), bk') ->
  exists wd,
    methodHandler (arrive (mkRequest "DELETE" ("/" +:+ p) h b) s0 bk)
    = (Some tt, wd)
    /\ response (Writer wd) = mkResponse 204 ∅ ""
    /\ Calls wd
       = [CallDelete (DeleteObjectInput.mk (S3bucket config) (storageKey p))]
    /\ Bucket wd = bk'.
Proof.
  intros Hs Hdel. eexists. split.
  - unfold arrive. rewrite methodHandler_dispatch by exact Hs.
    rewrite slash_app. change (dispatch "DELETE") with serveDeleteS3File.
    eapply serveDeleteS3File_run. exact Hdel.
  - cbn [Writer Calls Bucket].
    rewrite WriteHeader_unsent by reflexivity.
    repeat split.
Qed.

(** X2. All four handlers report a failure of their store call in the
    same way: the response is the one [handleHTTPException] writes for the
    resolved key and the error, with a status among 304, 400, 404 and 500,
    and nothing else is written (no 2xx status, no object header). *)
Theorem store_failure_reported (p : string) (h : Header) (b : RequestBody)
    (s0 : Z) (bk bk' : St) (e : error) :
  (directory p = true -> Homepage config <> "") ->
  let key := storageKey p in
  let token := Header_Get h "ETag" in
  let reported (m : string) :=
    exists wd,
      methodHandler (arrive (mkRequest m ("/" +:+ p) h b) s0 bk) = (Some tt, wd)
      /\ Writer wd = (handleHTTPException key (newResponseWriter s0) (Some e)).1
      /\ (Status (response (Writer wd)) = 304
          \/ Status (response (Writer wd)) = 400
          \/ Status (response (Writer wd)) = 404
          \/ Status (response (Writer wd)) = 500)
      /\ Bucket wd = bk' in
  (forall out,
      GetObject s3Session (GetObjectInput.mk (S3bucket config) key) bk
      = ((out, Some e), bk') -> reported "GET")
  /\ (forall out,
        HeadObject s3Session
          (HeadObjectInput.mk (S3bucket config) key
             (if String.eqb token "" then None else Some token)) bk
        = ((out, Some e), bk') -> reported "HEAD")
  /\ (forall out,
        DeleteObject s3Session (DeleteObjectInput.mk (S3bucket config) key) bk
        = ((out, Some e), bk') -> reported "DELETE")
  /\ (forall out,
        body_err b = None ->
        PutObject s3Session
          (PutObjectInput.mk (S3bucket config) key (body_bytes b)) bk
        = ((out, Some e), bk') -> reported "PUT").
Proof.
  intros Hs key token reported.
  assert (Hst : forall w : ResponseWriter,
             w = (handleHTTPException key (newResponseWriter s0) (Some e)).1 ->
             Status (response w) = 304 \/ Status (response w) = 400
             \/ Status (response w) = 404 \/ Status (response w) = 500).
  { intros w ->.
    destruct (handleHTTPException_Error key (newResponseWriter s0) e)
      as (message & code & -> & _ & Hcode).
    cbn [fst]. rewrite response_Error by (reflexivity || lia). exact Hcode. }
  subst reported. repeat split; intros out.
  - intros Hop. eexists. split.
    + unfold arrive. rewrite methodHandler_dispatch by exact Hs.
      rewrite slash_app. change (dispatch "GET") with serveGetS3File.
      eapply serveGetS3File_failed. exact Hop.
    + cbn [Writer Bucket]. split; [reflexivity|]. split; [now apply Hst | reflexivity].
  - intros Hop. eexists. split.
    + unfold arrive. rewrite methodHandler_dispatch by exact Hs.
      rewrite slash_app. change (dispatch "HEAD") with serveHeadS3File.
      eapply serveHeadS3File_failed. exact Hop.
    + cbn [Writer Bucket]. split; [reflexivity|]. split; [now apply Hst | reflexivity].
  - intros Hop. eexists. split.
    + unfold arrive. rewrite methodHandler_dispatch by exact Hs.
      rewrite slash_app. change (dispatch "DELETE") with serveDeleteS3File.
      eapply serveDeleteS3File_run. exact Hop.
    + cbn [Writer Bucket]. split; [reflexivity|]. split; [now apply Hst | reflexivity].
  - intros Hb Hop. eexists. split.
    + unfold arrive. rewrite methodHandler_dispatch by exact Hs.
      rewrite slash_app. change (dispatch "PUT") with servePutS3File.
      eapply servePutS3File_failed; eassumption.
    + cbn [Writer Bucket]. split; [reflexivity|]. split; [now apply Hst | reflexivity].
Qed.


(** X4. A GET the store answers without error returns normally exactly
    when the answer carries all four of ContentType, LastModified, ETag and
    ContentLength; with one of them nil the handler panics, after the get
    call was issued. *)
Theorem get_needs_metadata (p : string) (h : Header) (b : RequestBody) (s0 : Z)
    (bk bk' : St) (out : GetObjectOutput.t) :
  (directory p = true -> Homepage config <> "") ->
  GetObject s3Session (GetObjectInput.mk (S3bucket config) (storageKey p)) bk
  = ((out, None), bk') ->
  let run := methodHandler (arrive (mkRequest "GET" ("/" +:+ p) h b) s0 bk) in
  (run.1 = Some tt <->
     is_Some (GetObjectOutput.ContentType out)
     /\ is_Some (GetObjectOutput.LastModified out)
     /\ is_Some (GetObjectOutput.ETag out)
     /\ is_Some (GetObjectOutput.ContentLength out))
  /\ Calls run.2
     = [CallGet (GetObjectInput.mk (S3bucket config) (storageKey p))].
Proof.
  intros Hs Hget run. subst run. unfold arrive.
  rewrite methodHandler_dispatch by exact Hs. rewrite slash_app.
  change (dispatch "GET") with serveGetS3File. split.
  - run_handler. rewrite Hget, handleException_run.
    cbn [handleHTTPException fst snd Req Writer Bucket Calls].
    destruct (GetObjectOutput.ContentType out),
      (GetObjectOutput.LastModified out), (GetObjectOutput.ETag out),
      (GetObjectOutput.ContentLength out);
      cbn [fst snd Req Writer Bucket Calls];
      (split;
       [ intros Hr; try discriminate Hr; repeat split; eauto
       | intros (H1 & H2 & H3 & H4);
         try reflexivity;
         repeat match goal with
                | H : is_Some None |- _ => destruct H; discriminate
                end ]).
  - now rewrite serveGetS3File_calls.
Qed.

(** X5. A PUT the store accepts without returning an ETag panics after
    the object was stored: the put call has been issued, the bucket is in
    the state that call left, and nothing has been written to the
    response. *)
Theorem put_without_etag_panics (p : string) (h : Header) (b : RequestBody)
    (s0 : Z) (bk bk' : St) (out : PutObjectOutput.t) :
  (directory p = true -> Homepage config <> "") ->
  body_err b = None ->
  PutObject s3Session
    (PutObjectInput.mk (S3bucket config) (storageKey p) (body_bytes b)) bk
  = ((out, None), bk') ->
  PutObjectOutput.ETag out = None ->
  let run := methodHandler (arrive (mkRequest "PUT" ("/" +:+ p) h b) s0 bk) in
  run.1 = None
  /\ Bucket run.2 = bk'
  /\ Calls run.2
     = [CallPut (PutObjectInput.mk (S3bucket config) (storageKey p) (body_bytes b))]
  /\ Writer run.2 = newResponseWriter s0.
Proof.
  intros Hs Hb Hput Het run. subst run. unfold arrive.
  rewrite methodHandler_dispatch by exact Hs. rewrite slash_app.
  change (dispatch "PUT") with servePutS3File.
  rewrite (servePutS3File_no_etag _ _ _ _ _ _ _ _ _ _ Hb Hput Het).
  repeat split.
Qed.

(** X6. A request whose URL path is empty makes [methodHandler] panic on
    [r.URL.Path[1:]], whatever the method: nothing is written and no store
    call is issued. *)
Theorem empty_path_panics (m : string) (h : Header) (b : RequestBody)
    (w : ResponseWriter) (bk : St) (cs : list Call) :
  methodHandler (mkWorld (mkRequest m "" h b) w bk cs)
  = (None, mkWorld (mkRequest m "" h b) w bk cs).
Proof. reflexivity. Qed.

(** X7. Whatever the request and whatever the store answers, a run of
    [methodHandler] issues at most one store call, and a run that issues
    none leaves the bucket as it was. *)
Theorem at_most_one_store_call (r : Request) (s0 : Z) (bk : St) :
  let run := methodHandler (arrive r s0 bk) in
  (length (Calls run.2) <= 1)%nat
  /\ (Calls run.2 = [] -> Bucket run.2 = bk).
Proof.
  destruct r as [m path h b]. destruct path as [|c p]; [split; auto|].
  unfold arrive.
  destruct (directory p) eqn:Hd; [destruct (String.eqb_spec (Homepage config) "")|].
  - rewrite methodHandler_no_index by assumption. split; auto.
  - rewrite methodHandler_dispatch_byte by auto. revert Hd. generalize (storageKey p).
    intros key _. unfold dispatch.
    destruct (String.eqb m "GET");
      [rewrite serveGetS3File_calls; split; [auto | discriminate]|].
    destruct (String.eqb m "PUT").
    { destruct (body_err b) as [text|] eqn:Hb.
      - rewrite (servePutS3File_unread _ _ _ _ _ _ _ _ _ Hb). split; auto.
      - rewrite (servePutS3File_calls _ _ _ _ _ _ _ _ Hb). split; [auto | discriminate]. }
    destruct (String.eqb m "DELETE");
      [rewrite serveDeleteS3File_calls; split; [auto | discriminate]|].
    destruct (String.eqb m "HEAD");
      [rewrite serveHeadS3File_calls; split; [auto | discriminate]|].
    split; auto.
  - rewrite methodHandler_dispatch_byte by (rewrite Hd; discriminate).
    generalize (storageKey p). intros key. unfold dispatch.
    destruct (String.eqb m "GET");
      [rewrite serveGetS3File_calls; split; [auto | discriminate]|].
    destruct (String.eqb m "PUT").
    { destruct (body_err b) as [text|] eqn:Hb.
      - rewrite (servePutS3File_unread _ _ _ _ _ _ _ _ _ Hb). split; auto.
      - rewrite (servePutS3File_calls _ _ _ _ _ _ _ _ Hb). split; [auto | discriminate]. }
    destruct (String.eqb m "DELETE");
      [rewrite serveDeleteS3File_calls; split; [auto | discriminate]|].
    destruct (String.eqb m "HEAD");
      [rewrite serveHeadS3File_calls; split; [auto | discriminate]|].
    split; auto.
Qed.

(** X8. A path that names a file (not empty after the leading separator,
    not ending in a separator) is used as the storage key byte for byte,
    whatever the default index name: nothing is normalised, the fallback
    is not applied, and the one store call of a GET, HEAD, DELETE or
    readable PUT carries exactly that key. *)
Theorem file_path_verbatim (p m : string) (h : Header) (b : RequestBody)
    (s0 : Z) (bk : St) :
  p <> "" -> (forall q, p <> q +:+ "/") ->
  let run := methodHandler (arrive (mkRequest m ("/" +:+ p) h b) s0 bk) in
  Spec.resolve ("/" +:+ p) (Homepage config) = Spec.Resolved p false
  /\ storageKey p = p
  /\ (m = "GET" ->
      Calls run.2 = [CallGet (GetObjectInput.mk (S3bucket config) p)])
  /\ (m = "HEAD" ->
      exists token,
        Calls run.2 = [CallHead (HeadObjectInput.mk (S3bucket config) p token)])
  /\ (m = "DELETE" ->
      Calls run.2 = [CallDelete (DeleteObjectInput.mk (S3bucket config) p)])
  /\ (m = "PUT" -> body_err b = None ->
      Calls run.2
      = [CallPut (PutObjectInput.mk (S3bucket config) p (body_bytes b))]).
Proof.
  intros Hne Hns run.
  assert (Hd : directory p = false).
  { destruct (directory p) eqn:Hd; [|reflexivity].
    apply directory_true_iff in Hd. destruct Hd as [->|(q & ->)];
      [congruence | now destruct (Hns q)]. }
  assert (Hk : storageKey p = p) by (unfold storageKey; now rewrite Hd).
  assert (Hrun : run = dispatch m
            (mkWorld (mkRequest m (String (Ascii.ascii_of_N 47) p) h b)
               (newResponseWriter s0) bk [])).
  { subst run. unfold arrive.
    rewrite methodHandler_dispatch by (rewrite Hd; discriminate).
    now rewrite Hk, slash_app. }
  split; [|split; [exact Hk|]].
  - unfold Spec.resolve. rewrite slash_app. cbn [Spec.strip].
    change (N.eqb (Ascii.N_of_ascii (Ascii.ascii_of_N 47)) 47) with true.
    cbv iota. rewrite (str_eqb_false p "") by exact Hne.
    destruct (Spec.endsWithSeparator p) eqn:He; [|reflexivity].
    destruct (endsWithSeparator_inv p He) as (q & Hq). now destruct (Hns q).
  - rewrite Hrun. repeat split; intros ->.
    + change (dispatch "GET") with serveGetS3File.
      now rewrite serveGetS3File_calls.
    + change (dispatch "HEAD") with serveHeadS3File.
      rewrite serveHeadS3File_calls. eexists. reflexivity.
    + change (dispatch "DELETE") with serveDeleteS3File.
      now rewrite serveDeleteS3File_calls.
    + intros Hb. change (dispatch "PUT") with servePutS3File.
      now rewrite servePutS3File_calls.
Qed.

End Server.


(** ** The handlers on the in-memory bucket *)

Import MemBucket.

(** GET /report.txt: the object is found and sent. *)
Lemma get_found_reply_sample :
  exists wd,
    methodHandler client withIndex timeString redirectNote relativeTarget
      (arrive (mkRequest "GET" ("/" +:+ "report.txt") ∅ (mkBody "" None))
         404 sample)
    = (Some tt, wd)
    /\ Status (response (Writer wd)) = 200
    /\ Header_Get (Headers (response (Writer wd))) "Content-Type" = "text/plain"
    /\ Header_Get (Headers (response (Writer wd))) "Last-Modified" = "1600000000"
    /\ Header_Get (Headers (response (Writer wd))) "Etag" = "v2"
    /\ Header_Get (Headers (response (Writer wd))) "Content-Length" = "9"
    /\ Body (response (Writer wd)) = "quarterly".
Proof.
  apply (get_found_reply client withIndex timeString redirectNote relativeTarget
           "report.txt" ∅ (mkBody "" None) 404 sample sample
           (GetObjectOutput.mk "quarterly" (Some "text/plain") (Some 9)
              (Some 1600000000) (Some "v2"))
           "text/plain" "v2" 9 1600000000).
  - intros _. discriminate.
  - vm_compute. reflexivity.
  - reflexivity.
  - reflexivity.
  - reflexivity.
  - reflexivity.
Defined.

(** A missing key is answered with 404 and the key in the body. *)
Lemma classification_no_such_key :
  let resp :=
    response (handleHTTPException "missing.txt" (newResponseWriter 200)
                noSuchKey).1 in
  Status resp = 404
  /\ Body resp = "Path '" +:+ "missing.txt" +:+ "' not found: "
                 +:+ "The specified key does not exist.".
Proof.
  exact (proj1 (proj2 (handleHTTPException_classification "missing.txt" 200
                         (AwsErr (mkAwsError "NoSuchKey"
                                    "The specified key does not exist." None))))
           _ eq_refl (or_introl eq_refl)).
Defined.

(** The body of a 400 for MissingContentLength is fixed, whatever the
    message of the failure; and the body of a 500 for an error that is no
    backing-store failure is its text, with no code and message. *)
Lemma classification_bodies_differ :
  let e :=
    mkAwsError "MissingContentLength"
      "You must provide the Content-Length HTTP header." None in
  Body (response (handleHTTPException "upload.bin" (newResponseWriter 200)
                    (Some (AwsErr e))).1) <> Message e
  /\ (forall code message cause : string,
        Body (response (handleHTTPException "upload.bin" (newResponseWriter 200)
                          (Some (PlainErr "unexpected EOF"))).1)
        <> "An internal error occurred: " +:+ code +:+ " = " +:+ message +:+ cause).
Proof.
  split.
  - vm_compute. discriminate.
  - intros code message cause H.
    assert (E : "unexpected EOF" = code +:+ " = " +:+ message +:+ cause).
    { vm_compute in H. cbv [String.append] in *. congruence. }
    clear H.
    do 15 (destruct code as [|? code];
           [cbv [String.append] in E; discriminate
           | cbv [String.append] in E; fold String.append in E;
             try discriminate; injection E as _ E]).
Qed.

(** HEAD /report.txt with the current tag in the ETag header: the token
    reaches the store, which reports the object unchanged. *)
Lemma head_conditional_token_sample :
  let h := Header_of_list [("ETag", "v2")] in
  let run :=
    methodHandler client withIndex timeString redirectNote relativeTarget
      (arrive (mkRequest "HEAD" ("/" +:+ "report.txt") h (mkBody "" None))
         200 sample) in
  Calls run.2 = [CallHead (HeadObjectInput.mk "site" "report.txt" (Some "v2"))]
  /\ exists wd,
       run = (Some tt, wd)
       /\ Status (response (Writer wd)) = 304
       /\ Body (response (Writer wd)) = "Object not modified".
Proof.
  pose proof (head_conditional_token client withIndex timeString redirectNote relativeTarget
                "report.txt" (Header_of_list [("ETag", "v2")]) (mkBody "" None)
                200 sample) as H.
  destruct H as [Hcalls Hreply]; [intros _; discriminate|].
  split; [exact Hcalls|].
  apply (Hreply (HeadObjectOutput.mk None None None None)
           (mkAwsError "NotModified" "Not Modified" None) sample);
    reflexivity.
Defined.

(** HEAD /report.txt with the current tag in If-None-Match: the head
    operation is called without a token, although the store would report
    the object unchanged for it, and the response is not 304. *)
Lemma head_ignores_if_none_match :
  let h := Header_of_list [("If-None-Match", "v2")] in
  let run :=
    methodHandler client withIndex timeString redirectNote relativeTarget
      (arrive (mkRequest "HEAD" "/report.txt" h (mkBody "" None)) 200 sample) in
  Header_Get h "If-None-Match" = "v2"
  /\ Calls run.2 = [CallHead (HeadObjectInput.mk "site" "report.txt" None)]
  /\ (headObject (HeadObjectInput.mk "site" "report.txt" (Some "v2")) sample).1.2
     = notModified
  /\ exists resp, reply run = Some resp /\ Status resp <> 304.
Proof.
  split; [reflexivity|]. split; [vm_compute; reflexivity|].
  split; [reflexivity|].
  eexists. split; [vm_compute; reflexivity|]. discriminate.
Qed.

(** GET /dir/ with index.html configured. *)
Lemma index_fallback_key_sample :
  let run :=
    methodHandler client withIndex timeString redirectNote relativeTarget
      (arrive (mkRequest "GET" ("/" +:+ "dir/") ∅ (mkBody "" None)) 404 sample) in
  Spec.resolve ("/" +:+ "dir/") "index.html"
  = Spec.Resolved ("dir/" +:+ "index.html") true
  /\ Calls run.2 = [CallGet (GetObjectInput.mk "site" ("dir/" +:+ "index.html"))].
Proof.
  pose proof (index_fallback_key client withIndex timeString redirectNote relativeTarget
                "dir/" "GET" ∅ (mkBody "" None) 404 sample) as H.
  destruct H as (Hres & _ & Hget & _).
  - right. exists "dir". reflexivity.
  - discriminate.
  - split; [exact Hres | exact (Hget eq_refl)].
Defined.

(** GET /dir/ with no index page configured. *)
Lemma no_index_bad_request_sample :
  exists wd,
    methodHandler client withoutIndex timeString redirectNote relativeTarget
      (arrive (mkRequest "GET" ("/" +:+ "dir/") ∅ (mkBody "" None)) 404 sample)
    = (Some tt, wd)
    /\ Status (response (Writer wd)) = 400
    /\ Body (response (Writer wd)) = "Path must be provided"
    /\ Calls wd = []
    /\ Bucket wd = sample.
Proof.
  apply (no_index_bad_request client withoutIndex timeString redirectNote relativeTarget
           "dir/" "GET" ∅ (mkBody "" None) 404 sample).
  - right. exists "dir". reflexivity.
  - reflexivity.
Defined.

(** PATCH /x *)
Lemma unsupported_method_refused_sample :
  exists wd,
    methodHandler client withoutIndex timeString redirectNote relativeTarget
      (arrive (mkRequest "PATCH" ("/" +:+ "x") ∅ (mkBody "" None)) 404 sample)
    = (Some tt, wd)
    /\ Status (response (Writer wd)) = 405
    /\ Body (response (Writer wd)) = "Method " +:+ "PATCH" +:+ " not supported"
    /\ Calls wd = []
    /\ Bucket wd = sample.
Proof.
  apply (unsupported_method_refused client withoutIndex timeString redirectNote relativeTarget
           "x" "PATCH" ∅ (mkBody "" None) 404 sample);
    discriminate.
Defined.

(** PATCH / with no index page configured is answered with 400, not 405. *)
Lemma unsupported_method_on_directory :
  exists resp,
    reply (methodHandler client withoutIndex timeString redirectNote relativeTarget
             (arrive (mkRequest "PATCH" "/" ∅ (mkBody "" None)) 404 sample))
    = Some resp
    /\ Status resp = 400
    /\ Status resp <> 405.
Proof.
  eexists. split; [vm_compute; reflexivity|]. split; [reflexivity | discriminate].
Qed.

(** PUT /new.txt *)
Lemma put_created_reply_sample :
  exists wd,
    methodHandler client withIndex timeString redirectNote relativeTarget
      (arrive (mkRequest "PUT" ("/" +:+ "new.txt") ∅ (mkBody "fresh" None))
         404 sample)
    = (Some tt, wd)
    /\ Status (response (Writer wd)) = 201
    /\ Header_Get (Headers (response (Writer wd))) "ETag" = "v5"
    /\ Header_Get (Headers (response (Writer wd))) "Location" = "/" +:+ "new.txt"
    /\ Body (response (Writer wd)) = "".
Proof.
  destruct (put_created_reply client withIndex timeString redirectNote
              relativeTarget
              "new.txt" ∅ (mkBody "fresh" None) 404 sample
              (<["new.txt" := mkObject "fresh" "binary/octet-stream" 0 "v5"]> sample)
              (PutObjectOutput.mk (Some "v5")) "v5")
    as (wd & Hrun & Hstatus & Hetag & _ & Hlocation & Hbody).
  - intros _. discriminate.
  - reflexivity.
  - reflexivity.
  - reflexivity.
  - exists wd. split; [exact Hrun|]. split; [exact Hstatus|].
    split; [exact Hetag|]. split; [|exact Hbody].
    apply Hlocation. reflexivity.
Defined.

(** PUT /a/../b//c.txt: the object is stored under the key as it came, and
    the Location header names another path. *)
Lemma put_location_cleaned :
  exists wd,
    methodHandler client withIndex timeString redirectNote relativeTarget
      (arrive (mkRequest "PUT" "/a/../b//c.txt" ∅ (mkBody "fresh" None))
         404 sample)
    = (Some tt, wd)
    /\ Status (response (Writer wd)) = 201
    /\ Calls wd = [CallPut (PutObjectInput.mk "site" "a/../b//c.txt" "fresh")]
    /\ Header_Get (Headers (response (Writer wd))) "Location" = "/b/c.txt"
    /\ Header_Get (Headers (response (Writer wd))) "Location"
       <> "/" +:+ "a/../b//c.txt".
Proof.
  eexists. split; [vm_compute; reflexivity|].
  split; [reflexivity|]. split; [reflexivity|].
  split; [vm_compute; reflexivity | vm_compute; discriminate].
Qed.

(** PUT /new.txt over a connection that breaks. *)
Lemma put_unread_body_sample :
  exists wd,
    methodHandler client withIndex timeString redirectNote relativeTarget
      (arrive (mkRequest "PUT" ("/" +:+ "new.txt") ∅
                 (mkBody "fre" (Some "unexpected EOF"))) 404 sample)
    = (Some tt, wd)
    /\ Status (response (Writer wd)) = 500
    /\ Body (response (Writer wd))
       = "An internal error occurred: " +:+ "unexpected EOF"
    /\ Calls wd = []
    /\ Bucket wd = sample.
Proof.
  apply (put_unread_body client withIndex timeString redirectNote relativeTarget
           "new.txt" ∅ (mkBody "fre" (Some "unexpected EOF")) 404 sample
           "unexpected EOF").
  - intros _. discriminate.
  - reflexivity.
Defined.

(** PATCH /dir/ with no index page configured. *)
Lemma path_checked_before_method_sample :
  exists wd,
    methodHandler client withoutIndex timeString redirectNote relativeTarget
      (arrive (mkRequest "PATCH" ("/" +:+ "dir/") ∅ (mkBody "" None)) 404 sample)
    = (Some tt, wd)
    /\ Status (response (Writer wd)) = 400
    /\ Body (response (Writer wd)) = "Path must be provided"
    /\ Status (response (Writer wd)) <> 405.
Proof.
  apply (path_checked_before_method client withoutIndex timeString redirectNote relativeTarget
           "dir/" "PATCH" ∅ (mkBody "" None) 404 sample);
    try discriminate.
  - right. exists "dir". reflexivity.
  - reflexivity.
Defined.

(** PUT /new.txt, then GET /new.txt returns the bytes that were put. *)
Example put_then_get :
  let put :=
    methodHandler client withIndex timeString redirectNote relativeTarget
      (arrive (mkRequest "PUT" "/new.txt" ∅ (mkBody "fresh" None)) 404 sample) in
  let get :=
    methodHandler client withIndex timeString redirectNote relativeTarget
      (arrive (mkRequest "GET" "/new.txt" ∅ (mkBody "" None)) 404 (Bucket put.2)) in
  Status <$> reply put = Some 201
  /\ Status <$> reply get = Some 200
  /\ Body <$> reply get = Some "fresh".
Proof. vm_compute. repeat split. Qed.

(** DELETE /report.txt, then GET /report.txt is answered with 404. *)
Example delete_then_get :
  let del :=
    methodHandler client withIndex timeString redirectNote relativeTarget
      (arrive (mkRequest "DELETE" "/report.txt" ∅ (mkBody "" None)) 404 sample) in
  let get :=
    methodHandler client withIndex timeString redirectNote relativeTarget
      (arrive (mkRequest "GET" "/report.txt" ∅ (mkBody "" None)) 404 (Bucket del.2)) in
  Status <$> reply del = Some 204
  /\ Body <$> reply del = Some ""
  /\ Status <$> reply get = Some 404
  /\ Body <$> reply get
     = Some "Path 'report.txt' not found: The specified key does not exist.".
Proof. vm_compute. repeat split. Qed.

(** ** Reading the configuration *)

Import Bootstrap.

Lemma getEnvOrDefault_region (pf : Platform) :
  exists region,
    getEnvOrDefault pf "AWS_REGION" "eu-west-1" false = Return region
    /\ region <> ""
    /\ region = (if String.eqb (Getenv pf "AWS_REGION") ""
                 then "eu-west-1" else Getenv pf "AWS_REGION").
Proof.
  unfold getEnvOrDefault.
  destruct (Getenv pf "AWS_REGION") as [|c v] eqn:E; simpl.
  - exists "eu-west-1". repeat split. discriminate.
  - exists (String c v). repeat split. discriminate.
Qed.

(** The four ways the decoding step of [readConfig] can go. *)
Lemma readConfig_read (pf : Platform) (configPath bs : string) :
  let file := if String.eqb configPath "" then "config.yaml" else configPath in
  ReadFile pf file = inl bs ->
  exists cfg err,
    readConfig pf configPath
    = match err with
      | Some err =>
          Return (mkWebConfig "" "" "" "",
                  Some (Wrap err "failed to parse configuration file"))
      | None =>
          match cfg with
          | None => Panic
          | Some cfg =>
              Return
                (mkWebConfig
                   (if String.eqb (Port cfg) "" then "8000" else Port cfg)
                   (S3bucket cfg)
                   (if String.eqb (AwsRegion cfg) ""
                    then if String.eqb (Getenv pf "AWS_REGION") ""
                         then "eu-west-1" else Getenv pf "AWS_REGION"
                    else AwsRegion cfg)
                   (Homepage cfg), None)
          end
      end
    /\ (cfg, err)
       = (if String.eqb (Ext file) ".yaml" || String.eqb (Ext file) ".yml" then
            yaml_Unmarshal pf bs
          else if String.eqb (Ext file) ".json" then json_Unmarshal pf bs
          else if String.eqb (Ext file) ".toml" then toml_Decode pf bs
          else
            (Some (mkWebConfig "" "" "" ""),
             Some ("Unknown configuration file format " +:+ Ext file
                   +:+ " (support only yaml or json)"))).
Proof.
  intros file Hread. unfold readConfig. fold file. rewrite Hread.
  unfold toml_DecodeFile. rewrite Hread.
  match goal with |- context [let '(c, e) := ?d in _] => destruct d as [cfg err] end.
  exists cfg, err. split; [|reflexivity].
  destruct err as [e|]; [reflexivity|]. destruct cfg as [cfg|]; [|reflexivity].
  destruct (getEnvOrDefault_region pf) as (region & Hregion & _ & ->).
  destruct cfg as [port bucket region0 homepage]. cbn [Port AwsRegion S3bucket Homepage].
  destruct (String.eqb port ""); cbn [setPort Port AwsRegion S3bucket Homepage];
    destruct (String.eqb region0 ""); try reflexivity;
    rewrite Hregion; reflexivity.
Qed.

(** X9. [getEnvOrDefault] never returns the empty string when it is
    called as fatal or with a non-empty default: a variable set to the
    empty string counts as not set. *)
Theorem getEnvOrDefault_never_empty (pf : Platform) (envName defaultVal : string)
    (fatal : bool) (envVal : string) :
  fatal = true \/ defaultVal <> "" ->
  getEnvOrDefault pf envName defaultVal fatal = Return envVal ->
  envVal <> "".
Proof.
  unfold getEnvOrDefault. intros Hd.
  destruct (Getenv pf envName) as [|c v]; simpl.
  - destruct fatal; [discriminate|]. intros [= <-].
    destruct Hd as [Hd|Hd]; [discriminate | exact Hd].
  - intros [= <-]. discriminate.
Qed.

(** X10. A configuration that [readConfig] returns without error always
    has a port and a region: neither field is empty, whatever the file
    held and whatever the environment. *)
Theorem readConfig_port_and_region (pf : Platform) (configPath : string)
    (cfg : webConfig) :
  readConfig pf configPath = Return (cfg, None) ->
  Port cfg <> "" /\ AwsRegion cfg <> "".
Proof.
  intros H.
  destruct (ReadFile pf (if String.eqb configPath "" then "config.yaml"
                         else configPath)) as [bs|e] eqn:Hread.
  - destruct (readConfig_read pf configPath bs Hread) as (cfg0 & err & Hrun & _).
    rewrite Hrun in H. destruct err as [e|]; [discriminate|].
    destruct cfg0 as [cfg0|]; [|discriminate].
    injection H as <-. cbn [Port AwsRegion]. split.
    + destruct (String.eqb_spec (Port cfg0) ""); [discriminate | assumption].
    + destruct (String.eqb_spec (AwsRegion cfg0) ""); [|assumption].
      destruct (String.eqb_spec (Getenv pf "AWS_REGION") "");
        [discriminate | assumption].
  - unfold readConfig in H. rewrite Hread in H. discriminate.
Qed.

(** X11. [readConfig] never ends the process, and whenever it returns an
    error the configuration it returns with it is the empty one; the
    error text begins with "failed to read configuration file: " or
    "failed to parse configuration file: ". *)
Theorem readConfig_failure (pf : Platform) (configPath : string) :
  (forall code, readConfig pf configPath <> Exit code)
  /\ (forall cfg err,
        readConfig pf configPath = Return (cfg, Some err) ->
        cfg = mkWebConfig "" "" "" ""
        /\ exists cause,
             err = "failed to read configuration file: " +:+ cause
             \/ err = "failed to parse configuration file: " +:+ cause).
Proof.
  destruct (ReadFile pf (if String.eqb configPath "" then "config.yaml"
                         else configPath)) as [bs|e] eqn:Hread.
  - destruct (readConfig_read pf configPath bs Hread) as (cfg0 & err0 & Hrun & _).
    rewrite Hrun. split.
    + intros code. destruct err0; [discriminate|]. destruct cfg0; discriminate.
    + intros cfg err H. destruct err0 as [e|].
      * injection H as <- <-. split; [reflexivity|]. exists e. now right.
      * destruct cfg0; discriminate.
  - unfold readConfig. rewrite Hread. split; [discriminate|].
    intros cfg err [= <- <-]. split; [reflexivity|]. exists e. now left.
Qed.

(** X12. When the file is read and its decoder (chosen by the extension:
    .yaml or .yml, .json, .toml) succeeds, [readConfig] returns the decoded
    configuration with the two defaults filled in: an empty port becomes
    "8000", an empty region becomes the value of AWS_REGION, or "eu-west-1"
    when that is unset or empty.  The bucket name and the home page are
    returned as decoded, an empty bucket name included. *)
Theorem readConfig_defaults (pf : Platform) (configPath bs : string)
    (cfg : webConfig) :
  let file := if String.eqb configPath "" then "config.yaml" else configPath in
  ReadFile pf file = inl bs ->
  ((Ext file = ".yaml" \/ Ext file = ".yml")
     /\ yaml_Unmarshal pf bs = (Some cfg, None))
  \/ (Ext file = ".json" /\ json_Unmarshal pf bs = (Some cfg, None))
  \/ (Ext file = ".toml" /\ toml_Decode pf bs = (Some cfg, None)) ->
  readConfig pf configPath
  = Return
      (mkWebConfig
         (if String.eqb (Port cfg) "" then "8000" else Port cfg)
         (S3bucket cfg)
         (if String.eqb (AwsRegion cfg) ""
          then if String.eqb (Getenv pf "AWS_REGION") ""
               then "eu-west-1" else Getenv pf "AWS_REGION"
          else AwsRegion cfg)
         (Homepage cfg), None).
Proof.
  intros file Hread Hdec.
  destruct (readConfig_read pf configPath bs Hread) as (cfg0 & err & Hrun & Hsel).
  fold file in Hsel.
  assert (E : (cfg0, err) = (Some cfg, None)).
  { destruct Hdec as [[[He|He] Hd]|[[He Hd]|[He Hd]]];
      rewrite Hsel, He; simpl; exact Hd. }
  injection E as -> ->. exact Hrun.
Qed.

(** X13. A file that can be read but whose extension is none of .yaml,
    .yml, .json and .toml (compared byte for byte; no extension included)
    is refused with the empty configuration and the error
    "failed to parse configuration file: Unknown configuration file format
    <extension> (support only yaml or json)". *)
Theorem readConfig_unknown_extension (pf : Platform) (configPath bs : string) :
  let file := if String.eqb configPath "" then "config.yaml" else configPath in
  ReadFile pf file = inl bs ->
  Ext file <> ".yaml" -> Ext file <> ".yml" ->
  Ext file <> ".json" -> Ext file <> ".toml" ->
  readConfig pf configPath
  = Return
      (mkWebConfig "" "" "" "",
       Some ("failed to parse configuration file: "
             +:+ "Unknown configuration file format " +:+ Ext file
             +:+ " (support only yaml or json)")).
Proof.
  intros file Hread H1 H2 H3 H4.
  destruct (readConfig_read pf configPath bs Hread) as (cfg0 & err & Hrun & Hsel).
  fold file in Hsel.
  rewrite !(proj2 (String.eqb_neq _ _)) in Hsel by assumption.
  simpl in Hsel. injection Hsel as -> ->. exact Hrun.
Qed.

(** X14. When the decoder succeeds but leaves the configuration pointer
    nil (as a JSON document that is just [null] does), [readConfig] panics
    on reading the port. *)
Theorem readConfig_nil_panics (pf : Platform) (configPath bs : string) :
  let file := if String.eqb configPath "" then "config.yaml" else configPath in
  ReadFile pf file = inl bs ->
  ((Ext file = ".yaml" \/ Ext file = ".yml")
     /\ yaml_Unmarshal pf bs = (None, None))
  \/ (Ext file = ".json" /\ json_Unmarshal pf bs = (None, None))
  \/ (Ext file = ".toml" /\ toml_Decode pf bs = (None, None)) ->
  readConfig pf configPath = Panic.
Proof.
  intros file Hread Hdec.
  destruct (readConfig_read pf configPath bs Hread) as (cfg0 & err & Hrun & Hsel).
  fold file in Hsel.
  assert (E : (cfg0, err) = (None, None)).
  { destruct Hdec as [[[He|He] Hd]|[[He Hd]|[He Hd]]];
      rewrite Hsel, He; simpl; exact Hd. }
  injection E as -> ->. exact Hrun.
Qed.

(** ** The further properties on the in-memory bucket and a sample host *)

(** DELETE /report.txt *)
Lemma delete_no_content_sample :
  exists wd,
    methodHandler client withIndex timeString redirectNote relativeTarget
      (arrive (mkRequest "DELETE" ("/" +:+ "report.txt") ∅ (mkBody "" None))
         404 sample)
    = (Some tt, wd)
    /\ response (Writer wd) = mkResponse 204 ∅ ""
    /\ Calls wd = [CallDelete (DeleteObjectInput.mk "site" "report.txt")]
    /\ Bucket wd = delete "report.txt" sample.
Proof.
  apply (delete_no_content client withIndex timeString redirectNote relativeTarget
           "report.txt" ∅ (mkBody "" None) 404 sample
           (delete "report.txt" sample) (DeleteObjectOutput.mk None)).
  - intros _. discriminate.
  - reflexivity.
Defined.

(** GET /missing.txt *)
Lemma store_failure_reported_sample :
  exists wd,
    methodHandler client withIndex timeString redirectNote relativeTarget
      (arrive (mkRequest "GET" ("/" +:+ "missing.txt") ∅ (mkBody "" None))
         404 sample)
    = (Some tt, wd)
    /\ Writer wd
       = (handleHTTPException "missing.txt" (newResponseWriter 404) noSuchKey).1
    /\ (Status (response (Writer wd)) = 304
        \/ Status (response (Writer wd)) = 400
        \/ Status (response (Writer wd)) = 404
        \/ Status (response (Writer wd)) = 500)
    /\ Bucket wd = sample.
Proof.
  apply (proj1 (store_failure_reported client withIndex timeString redirectNote relativeTarget
                  "missing.txt" ∅ (mkBody "" None) 404 sample sample
                  (AwsErr (mkAwsError "NoSuchKey"
                             "The specified key does not exist." None))
                  (fun _ => ltac:(discriminate)))
           (GetObjectOutput.mk "" None None None None)).
  reflexivity.
Defined.


(** GET /report.txt: the store returns all four fields. *)
Lemma get_needs_metadata_sample :
  let run :=
    methodHandler client withIndex timeString redirectNote relativeTarget
      (arrive (mkRequest "GET" ("/" +:+ "report.txt") ∅ (mkBody "" None))
         404 sample) in
  (run.1 = Some tt <->
     is_Some (Some "text/plain") /\ is_Some (Some 1600000000)
     /\ is_Some (Some "v2") /\ is_Some (Some 9))
  /\ Calls run.2 = [CallGet (GetObjectInput.mk "site" "report.txt")].
Proof.
  apply (get_needs_metadata client withIndex timeString redirectNote relativeTarget
           "report.txt" ∅ (mkBody "" None) 404 sample sample
           (GetObjectOutput.mk "quarterly" (Some "text/plain") (Some 9)
              (Some 1600000000) (Some "v2"))).
  - intros _. discriminate.
  - vm_compute. reflexivity.
Defined.

(** PUT /new.txt to a store that returns no version tag. *)
Lemma put_without_etag_panics_sample :
  let run :=
    methodHandler untagged withIndex timeString redirectNote relativeTarget
      (arrive (mkRequest "PUT" ("/" +:+ "new.txt") ∅ (mkBody "fresh" None))
         404 sample) in
  run.1 = None
  /\ Bucket run.2
     = <["new.txt" := mkObject "fresh" "binary/octet-stream" 0 "v5"]> sample
  /\ Calls run.2 = [CallPut (PutObjectInput.mk "site" "new.txt" "fresh")]
  /\ Writer run.2 = newResponseWriter 404.
Proof.
  apply (put_without_etag_panics untagged withIndex timeString redirectNote relativeTarget
           "new.txt" ∅ (mkBody "fresh" None) 404 sample
           (<["new.txt" := mkObject "fresh" "binary/octet-stream" 0 "v5"]> sample)
           (PutObjectOutput.mk None)).
  - intros _. discriminate.
  - reflexivity.
  - reflexivity.
  - reflexivity.
Defined.

(** GET /a/../b//c.txt: the key is the path as it came. *)
Lemma file_path_verbatim_sample :
  let run :=
    methodHandler client withIndex timeString redirectNote relativeTarget
      (arrive (mkRequest "GET" ("/" +:+ "a/../b//c.txt") ∅ (mkBody "" None))
         404 sample) in
  Spec.resolve ("/" +:+ "a/../b//c.txt") "index.html"
  = Spec.Resolved "a/../b//c.txt" false
  /\ Calls run.2 = [CallGet (GetObjectInput.mk "site" "a/../b//c.txt")].
Proof.
  pose proof (file_path_verbatim client withIndex timeString redirectNote relativeTarget
                "a/../b//c.txt" "GET" ∅ (mkBody "" None) 404 sample) as H.
  destruct H as (Hres & _ & Hget & _).
  - discriminate.
  - intros q Hq. apply (f_equal Spec.endsWithSeparator) in Hq.
    rewrite endsWithSeparator_app in Hq. discriminate.
  - split; [exact Hres | exact (Hget eq_refl)].
Defined.

(** The region of the sample host, asked for as fatal. *)
Lemma getEnvOrDefault_never_empty_sample : "us-east-1" <> "".
Proof.
  apply (getEnvOrDefault_never_empty host "AWS_REGION" "" true "us-east-1").
  - left. reflexivity.
  - reflexivity.
Defined.

(** The default file of the sample host. *)
Lemma readConfig_port_and_region_sample :
  Port (mkWebConfig "8000" "site" "us-east-1" "") <> ""
  /\ AwsRegion (mkWebConfig "8000" "site" "us-east-1" "") <> "".
Proof.
  apply (readConfig_port_and_region host ""). reflexivity.
Defined.

(** A file that does not exist. *)
Lemma readConfig_failure_sample :
  mkWebConfig "" "" "" "" = mkWebConfig "" "" "" ""
  /\ exists cause,
       "failed to read configuration file: open x.toml: no such file or directory"
       = "failed to read configuration file: " +:+ cause
       \/ "failed to read configuration file: open x.toml: no such file or directory"
          = "failed to parse configuration file: " +:+ cause.
Proof.
  apply (proj2 (readConfig_failure host "x.toml")). reflexivity.
Defined.

Lemma readConfig_defaults_sample :
  readConfig host "" = Return (mkWebConfig "8000" "site" "us-east-1" "", None).
Proof.
  apply (readConfig_defaults host "" "s3bucket: site" (mkWebConfig "" "site" "" "")).
  - reflexivity.
  - left. split; [left|]; reflexivity.
Defined.

Lemma readConfig_unknown_extension_sample :
  readConfig host "notes.txt"
  = Return
      (mkWebConfig "" "" "" "",
       Some ("failed to parse configuration file: "
             +:+ "Unknown configuration file format " +:+ ".txt"
             +:+ " (support only yaml or json)")).
Proof.
  apply (readConfig_unknown_extension host "notes.txt" "port = 80");
    (reflexivity || discriminate).
Defined.

Lemma readConfig_nil_panics_sample : readConfig host "null.json" = Panic.
Proof.
  apply (readConfig_nil_panics host "null.json" "null").
  - reflexivity.
  - right. left. split; reflexivity.
Defined.
